(** * WindowToHell: the ingestion pipeline of [main.py]

    A shallow embedding of the subscriber ([subscribe]), the fetch pipeline
    ([fetch_metadata_and_image], [fetch_image]) and the bounded queue
    ([image_queue]) of [src/main.py], with the properties the specification
    states about them.

    Python values coming out of [json.loads] are an inductive type, Python
    exceptions are values of an error monad that also records what the code
    prints and which HTTP requests it issues, and [subscribe] is a step
    function over its program points, driven by what the network, the signal
    handler and the GUI thread do. *)

From Stdlib Require Import ZArith List String Ascii Bool Lia.
Import ListNotations.
Open Scope string_scope.
Open Scope list_scope.
Open Scope Z_scope.

(** ** Python values and the operations [main.py] applies to them *)

(** What [json.loads] and [response.json()] can return. *)
#[warnings="-register-all"]
Inductive pyval : Type :=
| PyNone
| PyBool (b : bool)
| PyInt (n : Z)
| PyFloat (repr : string)
| PyStr (s : string)
| PyList (xs : list pyval)
| PyDict (kvs : list (string * pyval)).

(** The exception classes that occur; all of them derive from [Exception]. *)
Inductive PyExc : Type :=
| ConnectionClosedError
| ConnectionClosedOK
| WebSocketException
| OSError
| RequestException
| HTTPError
| RequestsJSONDecodeError
| JSONDecodeError
| TypeError
| AttributeError
| KeyError
| UnidentifiedImageError
| UnicodeEncodeError.

(** [isinstance(e, requests.RequestException)] *)
Definition is_RequestException (e : PyExc) : bool :=
  match e with
  | RequestException | HTTPError | RequestsJSONDecodeError => true
  | _ => false
  end.

(** [isinstance(e, (websockets.ConnectionClosedError, websockets.ConnectionClosedOK))] *)
Definition is_ConnectionClosed (e : PyExc) : bool :=
  match e with
  | ConnectionClosedError | ConnectionClosedOK => true
  | _ => false
  end.

Inductive Res (A : Type) : Type :=
| Raise (e : PyExc)
| Ret (a : A).
Arguments Raise {A} e.
Arguments Ret {A} a.

Module Py.

(** [needle in hay] for two [str]: substring test. *)
Fixpoint contains (needle hay : string) : bool :=
  if String.prefix needle hay then true
  else match hay with
       | EmptyString => false
       | String _ rest => contains needle rest
       end.

Fixpoint lookup (k : string) (kvs : list (string * pyval)) : option pyval :=
  match kvs with
  | [] => None
  | (k', v) :: rest => if String.eqb k k' then Some v else lookup k rest
  end.

Definition is_key (k : string) (kvs : list (string * pyval)) : bool :=
  match lookup k kvs with Some _ => true | None => false end.

(** [PyStr k == v] *)
Definition str_eq (k : string) (v : pyval) : bool :=
  match v with
  | PyStr s => String.eqb k s
  | _ => false
  end.

(** [k in d] for a string literal [k]: key membership on a dict, element
    membership on a list, substring on a str, [TypeError] on anything
    else ("argument of type 'int' is not iterable"). *)
Definition In (k : string) (d : pyval) : Res bool :=
  match d with
  | PyDict kvs => Ret (is_key k kvs)
  | PyList xs => Ret (existsb (str_eq k) xs)
  | PyStr s => Ret (contains k s)
  | _ => Raise TypeError
  end.

(** [d[k]] for a string literal [k]. *)
Definition getitem (d : pyval) (k : string) : Res pyval :=
  match d with
  | PyDict kvs => match lookup k kvs with
                  | Some v => Ret v
                  | None => Raise KeyError
                  end
  | _ => Raise TypeError
  end.

(** [v.startswith(p)]: only [str] has the method. *)
Definition startswith (v : pyval) (p : string) : Res bool :=
  match v with
  | PyStr s => Ret (String.prefix p s)
  | _ => Raise AttributeError
  end.

Fixpoint drop (n : nat) (s : string) : string :=
  match n, s with
  | O, _ => s
  | S _, EmptyString => EmptyString
  | S k, String _ rest => drop k rest
  end.

(** [str.replace(old, new)] for a non-empty [old]: every occurrence, left
    to right, without overlap.  [skip] counts the characters of a matched
    occurrence still to be passed over. *)
Fixpoint replace_from (old new : string) (skip : nat) (s : string) : string :=
  match s with
  | EmptyString => EmptyString
  | String c rest =>
      match skip with
      | S k => replace_from old new k rest
      | O => if String.prefix old s
             then (new ++ replace_from old new (String.length old - 1) rest)%string
             else String c (replace_from old new 0 rest)
      end
  end.

Definition str_replace (s old new : string) : string :=
  replace_from old new 0 s.

(** [v.replace(old, new)] *)
Definition replace (v : pyval) (old new : string) : Res pyval :=
  match v with
  | PyStr s => Ret (PyStr (str_replace s old new))
  | _ => Raise AttributeError
  end.

(** A Python [str] is held as its UTF-8 bytes; a lone surrogate, which
    [json.loads] produces from an unpaired [\udXXX] escape, is held in the
    three-byte form [ED A0..BF xx] that no well-formed UTF-8 text contains.
    The ASCII tests above ([startswith], [in], [replace]) are the same on
    the bytes as on the characters. *)
Fixpoint has_surrogate (s : string) : bool :=
  match s with
  | EmptyString => false
  | String c rest =>
      match rest with
      | EmptyString => false
      | String d _ =>
          if ((Ascii.nat_of_ascii c =? 237)%nat
              && (160 <=? Ascii.nat_of_ascii d)%nat
              && (Ascii.nat_of_ascii d <=? 191)%nat)%bool
          then true
          else has_surrogate rest
      end
  end.

(** Whether [f"{v}"] can be written to a UTF-8 [sys.stdout]: a [str] is
    formatted as it is and is refused when it holds a lone surrogate; every
    other value is formatted through [repr], which escapes surrogates. *)
Definition prints (v : pyval) : bool :=
  match v with
  | PyStr s => negb (has_surrogate s)
  | _ => true
  end.

End Py.

(** ** What the program does to the outside world *)

(** The lines the program prints. *)
Inductive LogLine : Type :=
| LogMetadata (metadata : pyval)              (* "Metadata: {metadata}" *)
| LogFetchingImage (image_uri : pyval)        (* "Fetching image from: {image_uri}" *)
| LogFailedMetadata (e : PyExc)               (* "Failed to fetch metadata: {e}" *)
| LogErrorProcessing (e : PyExc)              (* "Error processing metadata or image: {e}" *)
| LogFailedImage (e : PyExc)                  (* "Failed to fetch image: {e}" *)
| LogErrorLoading (e : PyExc)                 (* "Error loading image: {e}" *)
| LogSubscribed                               (* "Subscribed to NewToken events." *)
| LogUriFound (metadata_uri : pyval)          (* "Metadata URI found: {metadata_uri}" *)
| LogQueueFull                                (* "Queue full. Dropping oldest image." *)
| LogClosed                                   (* "WebSocket connection closed. Reconnecting..." *)
| LogWebSocketError (e : PyExc)               (* "WebSocket error: {e}" *)
| LogReconnecting (retry_delay : Z).          (* "Reconnecting in {retry_delay} seconds..." *)

Inductive Event : Type :=
| EvPrint (l : LogLine)
| EvHttpGet (url : pyval) (timeout : Z)       (* requests.get(url, timeout=...) *)
| EvConnect (uri : string)                    (* websockets.connect(uri) *)
| EvSend (payload : pyval)                    (* websocket.send(json.dumps(payload)) *)
| EvClose                                     (* leaving [async with] *)
| EvSleep (seconds : Z).                      (* asyncio.sleep(...) *)

Definition Trace := list Event.

(** Code that prints, issues requests and may raise. *)
Definition M (A : Type) : Type := Trace * Res A.

Definition ret {A} (a : A) : M A := ([], Ret a).
Definition raise {A} (e : PyExc) : M A := ([], Raise e).
Definition emit (ev : Event) : M unit := ([ev], Ret tt).

(** Whether the line can be encoded for [sys.stdout].  The lines that show
    an exception always can: the text of an exception escapes what it
    quotes. *)
Definition encodes (l : LogLine) : bool :=
  match l with
  | LogMetadata v | LogFetchingImage v | LogUriFound v => Py.prints v
  | _ => true
  end.

(** [print(f"...")]: the line is written, or [UnicodeEncodeError] is raised
    and nothing is written. *)
Definition print (l : LogLine) : M unit :=
  if encodes l then emit (EvPrint l) else raise UnicodeEncodeError.
Definition lift {A} (r : Res A) : M A := ([], r).

Definition bind {A B} (m : M A) (f : A -> M B) : M B :=
  match m with
  | (t, Raise e) => (t, Raise e)
  | (t, Ret a) => let (t', r) := f a in (t ++ t', r)
  end.

Notation "x <- m ;; k" := (bind m (fun x => k))
  (at level 61, m at next level, right associativity).
Notation "m ;;; k" := (bind m (fun _ => k))
  (at level 61, right associativity).

(** [try: body except ...: handler] where the handler prints one line and
    falls through: the function then returns [None].  The line of a handler
    shows the exception only, so it is always written. *)
Definition try_except {A} (body : M (option A)) (handler : PyExc -> LogLine)
  : Trace * option A :=
  match body with
  | (t, Ret a) => (t, a)
  | (t, Raise e) => (t ++ [EvPrint (handler e)], None)
  end.

(** An HTTP response as far as the code looks at it. *)
Record Response : Type := { status_code : Z; content : string }.

(** What a [requests.get] call comes back with: a response, or an exception
    (a timeout, a refused connection, an invalid URL...). *)
Inductive HttpOutcome : Type :=
| GetRaises (e : PyExc)
| GetResponse (r : Response).

(** The network, as seen by one [requests.get] call. *)
Definition Http := pyval -> HttpOutcome.

Definition requests_get (http : Http) (url : pyval) (timeout : Z) : M Response :=
  emit (EvHttpGet url timeout) ;;;
  match http url with
  | GetRaises e => raise e
  | GetResponse r => ret r
  end.

(** [Response.raise_for_status] of the requests library: an [HTTPError] for
    a 4xx or 5xx status code, nothing otherwise. *)
Definition is_error_status (code : Z) : bool :=
  ((400 <=? code) && (code <? 600))%bool.

Definition raise_for_status (r : Response) : M unit :=
  if is_error_status (status_code r) then raise HTTPError else ret tt.

(** A decoded picture: its size and the bytes it was decoded from. *)
Record Image : Type := { size : Z * Z; source : string }.

Definition resize (im : Image) (sz : Z * Z) : Image :=
  {| size := sz; source := source im |}.

(** ** The bounded queue [image_queue = queue.Queue(maxsize=5)] *)

Record Queue : Type := { maxsize : Z; items : list Image }.

Module Q.

Definition qsize (q : Queue) : Z := Z.of_nat (List.length (items q)).

(** [Queue.full]: [0 < maxsize <= qsize] *)
Definition full (q : Queue) : bool :=
  ((0 <? maxsize q) && (maxsize q <=? qsize q))%bool.

(** [Queue.empty] *)
Definition empty (q : Queue) : bool :=
  match items q with [] => true | _ => false end.

(** [Queue.put(item)], blocking: on a full queue the caller waits, which
    is [None] here. *)
Definition put (q : Queue) (item : Image) : option Queue :=
  if full q then None
  else Some {| maxsize := maxsize q; items := items q ++ [item] |}.

(** [Queue.get()], blocking: on an empty queue the caller waits. *)
Definition get (q : Queue) : option (Image * Queue) :=
  match items q with
  | [] => None
  | im :: rest => Some (im, {| maxsize := maxsize q; items := rest |})
  end.

End Q.

Definition image_queue_init : Queue := {| maxsize := 5; items := [] |}.

(** ** The claims in the specification's words

    Definitions that follow the wording of the specification rather than
    the code, to state what it claims. *)

(** "lacking the [k] field": a value that is not a mapping has no fields. *)
Definition lacks_field (k : string) (d : pyval) : bool :=
  match d with
  | PyDict kvs => negb (Py.is_key k kvs)
  | _ => true
  end.



Definition is_str (v : pyval) : bool :=
  match v with PyStr _ => true | _ => false end.

(** ** The fetch pipeline *)

(** Lines 34-35 of [fetch_metadata_and_image]: the gateway rewrite applied
    to the image URI before it is fetched. *)
Definition rewrite_ipfs (image_uri : pyval) : Res pyval :=
  match Py.startswith image_uri "ipfs://" with
  | Raise e => Raise e
  | Ret true => Py.replace image_uri "ipfs://" "https://ipfs.io/ipfs/"
  | Ret false => Ret image_uri
  end.

(** The rewrite rule in the specification's words, for comparison: the
    prefix [ipfs://] is exchanged for the gateway prefix and the rest of the
    string is kept as it is; any other string is returned unchanged. *)
Definition prefix_substitution (image_uri : string) : string :=
  if String.prefix "ipfs://" image_uri
  then ("https://ipfs.io/ipfs/" ++ Py.drop 7 image_uri)%string
  else image_uri.

Section Pipeline.

(** [json.loads] on a text: [None] when it raises [JSONDecodeError]. *)
Variable json_loads : string -> option pyval.

(** [Image.open(BytesIO(content))]: [None] when PIL cannot identify or
    decode the bytes. *)
Variable Image_open : string -> option Image.

(** [response.json()] *)
Definition response_json (r : Response) : M pyval :=
  match json_loads (content r) with
  | Some v => ret v
  | None => raise RequestsJSONDecodeError
  end.

Definition fetch_image_handler (e : PyExc) : LogLine :=
  if is_RequestException e then LogFailedImage e else LogErrorLoading e.

Definition fetch_image (http : Http) (image_uri : pyval) : Trace * option Image :=
  try_except
    (response <- requests_get http image_uri 5 ;;
     raise_for_status response ;;;
     image <- match Image_open (content response) with
              | Some im => ret im
              | None => raise UnidentifiedImageError
              end ;;
     ret (Some (resize image (400, 400))))
    fetch_image_handler.

Definition fetch_metadata_handler (e : PyExc) : LogLine :=
  if is_RequestException e then LogFailedMetadata e else LogErrorProcessing e.

(** [http_meta] answers the request for the metadata, [http_image] the
    one for the image. *)
Definition fetch_metadata_and_image (http_meta http_image : Http)
    (metadata_uri : pyval) : Trace * option Image :=
  try_except
    (response <- requests_get http_meta metadata_uri 5 ;;
     raise_for_status response ;;;
     metadata <- response_json response ;;
     print (LogMetadata metadata) ;;;
     has_image <- lift (Py.In "image" metadata) ;;
     if has_image then
       image_uri <- lift (Py.getitem metadata "image") ;;
       image_uri <- lift (rewrite_ipfs image_uri) ;;
       print (LogFetchingImage image_uri) ;;;
       (let (t, image) := fetch_image http_image image_uri in (t, Ret image))
     else ret None)
    fetch_metadata_handler.

(** ** The subscriber *)

(** The program points of [subscribe] at which it reads the flag, waits
    for the outside world or touches the queue. *)
Inductive Pc : Type :=
| OuterCheck                  (* line 73: while not shutdown_requested *)
| Connecting                  (* lines 75-78: connect and send in flight *)
| InnerCheck                  (* line 81: while not shutdown_requested *)
| Receiving                   (* line 82: await websocket.recv() *)
| PushCheck (image : Image)   (* line 93: if not image_queue.full() *)
| PushPut (image : Image)     (* line 94: image_queue.put(image) *)
| AfterTry                    (* line 105: if not shutdown_requested *)
| Sleeping                    (* line 107: await asyncio.sleep(retry_delay) *)
| Done.                       (* subscribe has returned *)

(** The connection states of the specification. *)
Inductive ConnectionState : Type :=
| Disconnected
| ConnectingState
| Subscribed
| ShuttingDown.

Definition connection_state (p : Pc) : ConnectionState :=
  match p with
  | OuterCheck | AfterTry | Sleeping => Disconnected
  | Connecting => ConnectingState
  | InnerCheck | Receiving | PushCheck _ | PushPut _ => Subscribed
  | Done => ShuttingDown
  end.

Record State : Type := {
  pc : Pc;
  retry_delay : Z;
  shutdown_requested : bool;
  image_queue : Queue;
  trace : Trace
}.

Definition init : State :=
  {| pc := OuterCheck; retry_delay := 1; shutdown_requested := false;
     image_queue := image_queue_init; trace := [] |}.

Definition uri : string := "wss://pumpportal.fun/api/data".
Definition payload : pyval := PyDict [("method", PyStr "subscribeNewToken")].

(** How [websockets.connect] and the [send] after it end. *)
Inductive ConnectOutcome : Type :=
| ConnectRaises (e : PyExc)
| SendRaises (e : PyExc)
| SubscribeOk.

(** How [await websocket.recv()] ends. *)
Inductive RecvOutcome : Type :=
| RecvRaises (e : PyExc)
| RecvMessage (message : string).

(** What can happen next: the subscriber moves on by itself ([Tick]), an
    awaited operation completes, the signal handler runs, or the GUI
    thread runs [update_task]. *)
Inductive Action : Type :=
| Tick
| ConnectReply (o : ConnectOutcome)
| RecvReply (o : RecvOutcome) (http_meta http_image : Http)
| Wake
| Signal
| UpdateTask (due : bool).

(** The two [except] clauses of [subscribe]. *)
Definition subscribe_handler (e : PyExc) : LogLine :=
  if is_ConnectionClosed e then LogClosed else LogWebSocketError e.

(** Lines 83-91: from the received text to the value tested by [if image]. *)
Definition on_message (message : string) (http_meta http_image : Http)
  : M (option Image) :=
  data <- match json_loads message with
          | Some d => ret d
          | None => raise JSONDecodeError
          end ;;
  has_uri <- lift (Py.In "uri" data) ;;
  if has_uri then
    metadata_uri <- lift (Py.getitem data "uri") ;;
    print (LogUriFound metadata_uri) ;;;
    (let (t, image) := fetch_metadata_and_image http_meta http_image metadata_uri
     in (t, Ret image))
  else ret None.

Definition goto (s : State) (p : Pc) (out : Trace) : State :=
  {| pc := p; retry_delay := retry_delay s;
     shutdown_requested := shutdown_requested s;
     image_queue := image_queue s; trace := trace s ++ out |}.

Definition with_delay (s : State) (d : Z) : State :=
  {| pc := pc s; retry_delay := d;
     shutdown_requested := shutdown_requested s;
     image_queue := image_queue s; trace := trace s |}.

Definition with_queue (s : State) (q : Queue) : State :=
  {| pc := pc s; retry_delay := retry_delay s;
     shutdown_requested := shutdown_requested s;
     image_queue := q; trace := trace s |}.

(** [handle_shutdown_signal], and the assignment at the end of [main]. *)
Definition handle_shutdown_signal (s : State) : State :=
  {| pc := pc s; retry_delay := retry_delay s;
     shutdown_requested := true;
     image_queue := image_queue s; trace := trace s |}.

(** [ImageDisplayApp.update_task], as far as the queue goes; [due] is
    [time.time() - self.last_update_time >= 2]. *)
Definition update_task (due : bool) (s : State) : option State :=
  if (negb (Q.empty (image_queue s)) && due)%bool
  then match Q.get (image_queue s) with
       | Some (_, q) => Some (with_queue s q)
       | None => None
       end
  else Some s.

(** One step of the system; [None] when the action cannot happen at this
    program point. *)
Definition step (s : State) (a : Action) : option State :=
  match a, pc s with
  | Signal, _ => Some (handle_shutdown_signal s)
  | UpdateTask due, _ => update_task due s
  | Tick, OuterCheck =>
      if shutdown_requested s then Some (goto s Done [])
      else Some (goto s Connecting [EvConnect uri])
  | ConnectReply (ConnectRaises e), Connecting =>
      Some (goto s AfterTry [EvPrint (subscribe_handler e)])
  | ConnectReply (SendRaises e), Connecting =>
      Some (goto s AfterTry [EvSend payload; EvClose; EvPrint (subscribe_handler e)])
  | ConnectReply SubscribeOk, Connecting =>
      Some (goto s InnerCheck [EvSend payload; EvPrint LogSubscribed])
  | Tick, InnerCheck =>
      if shutdown_requested s
      then Some (goto (with_delay s 1) AfterTry [EvClose])
      else Some (goto s Receiving [])
  | RecvReply (RecvRaises e) _ _, Receiving =>
      Some (goto s AfterTry [EvClose; EvPrint (subscribe_handler e)])
  | RecvReply (RecvMessage message) http_meta http_image, Receiving =>
      match on_message message http_meta http_image with
      | (t, Raise e) =>
          Some (goto s AfterTry (t ++ [EvClose; EvPrint (subscribe_handler e)]))
      | (t, Ret (Some image)) => Some (goto s (PushCheck image) t)
      | (t, Ret None) => Some (goto s InnerCheck t)
      end
  | Tick, PushCheck image =>
      if negb (Q.full (image_queue s))
      then Some (goto s (PushPut image) [])
      else Some (goto s InnerCheck [EvPrint LogQueueFull])
  | Tick, PushPut image =>
      match Q.put (image_queue s) image with
      | Some q => Some (goto (with_queue s q) InnerCheck [])
      | None => None
      end
  | Tick, AfterTry =>
      if negb (shutdown_requested s)
      then Some (goto s Sleeping
                   [EvPrint (LogReconnecting (retry_delay s)); EvSleep (retry_delay s)])
      else Some (goto s OuterCheck [])
  | Wake, Sleeping =>
      Some (goto (with_delay s (Z.min (retry_delay s * 2) 30)) OuterCheck [])
  | _, _ => None
  end.

Fixpoint run (s : State) (acts : list Action) : option State :=
  match acts with
  | [] => Some s
  | a :: rest => match step s a with
                 | Some s' => run s' rest
                 | None => None
                 end
  end.

(** [subscribe()] run against a world that acts as listed: the state it
    is in afterwards, [None] if the world does something that cannot happen
    at that point. *)
Definition subscribe (world : list Action) : option State := run init world.

(** The delays the subscriber has slept so far, oldest first. *)
Fixpoint sleeps (t : Trace) : list Z :=
  match t with
  | [] => []
  | EvSleep d :: rest => d :: sleeps rest
  | _ :: rest => sleeps rest
  end.

(** The URLs requested over HTTP so far, oldest first. *)
Fixpoint http_gets (t : Trace) : list pyval :=
  match t with
  | [] => []
  | EvHttpGet url _ :: rest => url :: http_gets rest
  | _ :: rest => http_gets rest
  end.

(** The number of connection attempts so far. *)
Fixpoint connects (t : Trace) : nat :=
  match t with
  | [] => O
  | EvConnect _ :: rest => S (connects rest)
  | _ :: rest => connects rest
  end.



(** *** Bookkeeping for the statements about runs *)

(** The actions that are steps of [subscribe] itself, as opposed to the
    signal handler and the GUI thread. *)
Definition is_subscriber_step (a : Action) : bool :=
  match a with
  | Signal | UpdateTask _ => false
  | _ => true
  end.

Definition is_update_task (a : Action) : bool :=
  match a with UpdateTask _ => true | _ => false end.

Definition is_recv (a : Action) : bool :=
  match a with RecvReply _ _ _ => true | _ => false end.

Definition subscriber_steps (acts : list Action) : nat :=
  List.length (filter is_subscriber_step acts).

(** The number of messages (or receive errors) taken from the socket. *)
Definition receives (acts : list Action) : nat :=
  List.length (filter is_recv acts).

(** What the subscriber is waiting for at a program point. *)
Definition awaited (p : Pc) (a : Action) : bool :=
  match p, a with
  | (OuterCheck | InnerCheck | PushCheck _ | PushPut _ | AfterTry), Tick => true
  | Connecting, ConnectReply _ => true
  | Receiving, RecvReply _ _ _ => true
  | Sleeping, Wake => true
  | _, _ => false
  end.

(** The number of steps [subscribe] can still take once the flag is set. *)
Definition rank (p : Pc) : nat :=
  match p with
  | Done => 0
  | OuterCheck => 1
  | AfterTry | Sleeping => 2
  | InnerCheck => 3
  | Connecting | PushPut _ => 4
  | PushCheck _ => 5
  | Receiving => 6
  end.

(** One failed connection attempt, from the head of the outer loop back
    to it: the attempt, its failure, the sleep, the wake-up. *)
Definition failed_attempt (e : PyExc) : list Action :=
  [Tick; ConnectReply (ConnectRaises e); Tick; Wake].

Fixpoint failed_attempts (es : list PyExc) : list Action :=
  match es with
  | [] => []
  | e :: rest => failed_attempt e ++ failed_attempts rest
  end.

(** Line 108, applied [n] times to the initial delay. *)
Fixpoint backoff_from (d : Z) (n : nat) : Z :=
  match n with
  | O => d
  | S k => backoff_from (Z.min (d * 2) 30) k
  end.

(** The delays slept over [n] failures in a row, starting from delay [d]. *)
Fixpoint backoff_delays (d : Z) (n : nat) : list Z :=
  match n with
  | O => []
  | S k => d :: backoff_delays (Z.min (d * 2) 30) k
  end.

(** What holds in every state reachable from [init]. *)
Definition Inv (s : State) : Prop :=
  maxsize (image_queue s) = 5
  /\ Q.qsize (image_queue s) <= 5
  /\ (forall image, pc s = PushPut image -> Q.qsize (image_queue s) < 5)
  /\ 1 <= retry_delay s <= 30.

End Pipeline.

(** ** Observations on traces and runs *)

(** The events a fetch may produce: printed lines and HTTP requests with
    the 5-second timeout. *)
Definition is_fetch_event (ev : Event) : bool :=
  match ev with
  | EvPrint _ => true
  | EvHttpGet _ timeout => timeout =? 5
  | _ => false
  end.

(** The number of [websocket.send] calls so far. *)
Fixpoint sends (t : Trace) : nat :=
  match t with
  | [] => O
  | EvSend _ :: rest => S (sends rest)
  | _ :: rest => sends rest
  end.

(** The number of connections closed on leaving [async with] so far. *)
Fixpoint closes (t : Trace) : nat :=
  match t with
  | [] => O
  | EvClose :: rest => S (closes rest)
  | _ :: rest => closes rest
  end.

(** *** Invariants of the runs of [subscribe] *)

(** The delays slept so far are those of line 108 iterated from 1, and
    while no shutdown was requested [retry_delay] is the next of them. *)
Definition backoff_inv (s : State) : Prop :=
  let n := List.length (sleeps (trace s)) in
  sleeps (trace s) = backoff_delays 1 n
  /\ (shutdown_requested s = false ->
      match pc s with
      | Sleeping => exists k, n = S k /\ retry_delay s = backoff_from 1 k
      | _ => retry_delay s = backoff_from 1 n
      end).

(** [subscribe] has returned only if shutdown was requested. *)
Definition done_inv (s : State) : Prop :=
  pc s = Done -> shutdown_requested s = true.

Definition canonical (image : Image) : Prop := size image = (400, 400).

(** The images in the queue and the one about to be pushed are 400 x 400. *)
Definition size_inv (s : State) : Prop :=
  Forall canonical (items (image_queue s))
  /\ match pc s with
     | PushCheck image | PushPut image => canonical image
     | _ => True
     end.

(** A connection is open exactly while the subscriber is subscribed. *)
Definition connection_inv (s : State) : Prop :=
  match connection_state (pc s) with
  | Subscribed => sends (trace s) = S (closes (trace s))
  | _ => sends (trace s) = closes (trace s)
  end.

(** Connection attempts against sleeps. *)
Definition reconnect_inv (s : State) : Prop :=
  let n := List.length (sleeps (trace s)) in
  (connects (trace s) <= S n)%nat
  /\ match pc s with
     | OuterCheck => shutdown_requested s = false -> connects (trace s) = n
     | Sleeping => connects (trace s) = n
     | Done => True
     | _ => connects (trace s) = S n
     end.

Section Observers.

Variable json_loads : string -> option pyval.
Variable Image_open : string -> option Image.

(** The image handed to [image_queue.put] (line 94) by this step, if any. *)
Definition put_of (s : State) (a : Action) : list Image :=
  match a, pc s with
  | Tick, PushPut image => [image]
  | _, _ => []
  end.

(** The image [update_task] takes with [image_queue.get()] (line 140) in
    this step, if any. *)
Definition got_of (s : State) (a : Action) : list Image :=
  match a with
  | UpdateTask due =>
      if (negb (Q.empty (image_queue s)) && due)%bool
      then match Q.get (image_queue s) with
           | Some (image, _) => [image]
           | None => []
           end
      else []
  | _ => []
  end.

(** The images put into the queue along a run, in order. *)
Fixpoint put_log (s : State) (acts : list Action) : list Image :=
  match acts with
  | [] => []
  | a :: rest =>
      match step json_loads Image_open s a with
      | Some s' => put_of s a ++ put_log s' rest
      | None => []
      end
  end.

(** The images taken out of the queue along a run, in order. *)
Fixpoint got_log (s : State) (acts : list Action) : list Image :=
  match acts with
  | [] => []
  | a :: rest =>
      match step json_loads Image_open s a with
      | Some s' => got_of s a ++ got_log s' rest
      | None => []
      end
  end.

End Observers.

(** ** Sample inputs

    A decoder table for the JSON texts and a decoder for the image bytes
    used in the examples below; on these texts the table agrees with
    [json.loads]. *)
Module Sample.

Definition dq : string := String (Ascii.ascii_of_nat 34) EmptyString.
Definition quoted (s : string) : string := (dq ++ s ++ dq)%string.

(** [{"k": "v"}] *)
Definition object1 (k v : string) : string :=
  ("{" ++ quoted k ++ ": " ++ quoted v ++ "}")%string.

Definition msg_uri : string := object1 "uri" "https://meta.example/1.json".
Definition msg_no_uri : string := object1 "txType" "create".
Definition body_ipfs : string := object1 "image" "ipfs://abc/def".
Definition body_ipfs_twice : string := object1 "image" "ipfs://a/ipfs://b".
Definition body_http : string := object1 "image" "https://img.example/1.png".
Definition body_no_image : string := object1 "name" "token".
Definition body_image_number : string := ("{" ++ quoted "image" ++ ": 7}")%string.

(** The [str] made of the lone surrogate U+D83D, and the JSON texts that
    decode to it (the escape [\ud83d] is plain ASCII in the text). *)
Definition surrogate : string :=
  String (Ascii.ascii_of_nat 237)
    (String (Ascii.ascii_of_nat 160) (String (Ascii.ascii_of_nat 189) EmptyString)).
Definition msg_uri_surrogate : string := object1 "uri" "\ud83d".
Definition image_surrogate : string := ("https://img.example/" ++ surrogate)%string.
Definition body_image_surrogate : string :=
  object1 "image" "https://img.example/\ud83d".

Definition table : list (string * pyval) :=
  [ (msg_uri, PyDict [("uri", PyStr "https://meta.example/1.json")]);
    (msg_no_uri, PyDict [("txType", PyStr "create")]);
    (body_ipfs, PyDict [("image", PyStr "ipfs://abc/def")]);
    (body_ipfs_twice, PyDict [("image", PyStr "ipfs://a/ipfs://b")]);
    (body_http, PyDict [("image", PyStr "https://img.example/1.png")]);
    (body_no_image, PyDict [("name", PyStr "token")]);
    (body_image_number, PyDict [("image", PyInt 7)]);
    ("5", PyInt 5);
    ("null", PyNone);
    ("{}", PyDict []);
    (msg_uri_surrogate, PyDict [("uri", PyStr surrogate)]);
    (body_image_surrogate, PyDict [("image", PyStr image_surrogate)]) ].

Definition json_loads (text : string) : option pyval := Py.lookup text table.

(** Accepts binary PPM data, which starts with [P6]. *)
Definition Image_open (bytes : string) : option Image :=
  if String.prefix "P6" bytes
  then Some {| size := (2, 2); source := bytes |}
  else None.

Definition ppm : string := "P6 2 2 255 ............".

Definition ok (body : string) : Http :=
  fun _ => GetResponse {| status_code := 200; content := body |}.
Definition timeout : Http := fun _ => GetRaises RequestException.

Definition picture (tag : string) : Image := {| size := (400, 400); source := tag |}.

Definition meta_url : pyval := PyStr "https://meta.example/1.json".

(** Subscribed and waiting for a message, right after the first connect. *)
Definition receiving : State :=
  {| pc := Receiving; retry_delay := 1; shutdown_requested := false;
     image_queue := image_queue_init;
     trace := [EvConnect uri; EvSend payload; EvPrint LogSubscribed] |}.

(** The same with the flag set while the subscriber waits. *)
Definition signalled : State :=
  {| pc := Receiving; retry_delay := 1; shutdown_requested := true;
     image_queue := image_queue_init;
     trace := [EvConnect uri; EvSend payload; EvPrint LogSubscribed] |}.

Definition finished : State :=
  {| pc := Done; retry_delay := 1; shutdown_requested := true;
     image_queue := image_queue_init;
     trace := [EvConnect uri; EvSend payload; EvPrint LogSubscribed; EvClose] |}.

Definition full_queue : Queue :=
  {| maxsize := 5;
     items := [picture "a"; picture "b"; picture "c"; picture "d"; picture "e"] |}.

(** About to push a sixth image. *)
Definition pushing : State :=
  {| pc := PushCheck (picture "f"); retry_delay := 1; shutdown_requested := false;
     image_queue := full_queue;
     trace := [] |}.

End Sample.

(** Sample runs of the subscriber. *)
Module Worlds.

(** One message with a [uri]; both requests succeed and the image is
    queued. *)
Definition one_image : list Action :=
  [Tick; ConnectReply SubscribeOk; Tick;
   RecvReply (RecvMessage Sample.msg_uri)
     (Sample.ok Sample.body_http) (Sample.ok Sample.ppm);
   Tick; Tick].

(** The same, after which [update_task] takes the image. *)
Definition one_image_shown : list Action := one_image ++ [UpdateTask true].

(** Three connection attempts that fail. *)
Definition three_failures : list Action :=
  failed_attempts [OSError; OSError; OSError].

(** A subscription, a signal while waiting, one last message. *)
Definition shutdown : list Action :=
  [Tick; ConnectReply SubscribeOk; Tick; Signal;
   RecvReply (RecvMessage Sample.msg_no_uri) Sample.timeout Sample.timeout;
   Tick; Tick; Tick].

End Worlds.

(** * Properties *)

(** ** The rewrite of the image URI *)

Lemma prefix_empty (s : string) : String.prefix EmptyString s = true.
Proof. destruct s; reflexivity. Qed.

Lemma replace_from_absent (old new s : string) :
  Py.contains old s = false -> Py.replace_from old new 0 s = s.
Proof.
  induction s as [|c rest IH]; intros H; [reflexivity|].
  cbn [Py.contains] in H. cbn [Py.replace_from].
  destruct (String.prefix old (String c rest)); [discriminate|].
  now rewrite IH.
Qed.

(** A URI that does not start with [ipfs://] passes through unchanged. *)
Lemma rewrite_ipfs_other (s : string) :
  String.prefix "ipfs://" s = false -> rewrite_ipfs (PyStr s) = Ret (PyStr s).
Proof.
  intros H. unfold rewrite_ipfs, Py.startswith. now rewrite H.
Qed.

(** When [ipfs://] does not occur again after the prefix, the rewrite is
    the exact prefix substitution. *)
Lemma rewrite_ipfs_single (rest : string) :
  Py.contains "ipfs://" rest = false ->
  rewrite_ipfs (PyStr ("ipfs://" ++ rest)%string)
  = Ret (PyStr ("https://ipfs.io/ipfs/" ++ rest)%string).
Proof.
  intros H. unfold rewrite_ipfs, Py.startswith, Py.replace, Py.str_replace.
  cbn. rewrite !prefix_empty. now rewrite replace_from_absent.
Qed.

Lemma prefix_substitution_ipfs (rest : string) :
  prefix_substitution ("ipfs://" ++ rest)%string
  = ("https://ipfs.io/ipfs/" ++ rest)%string.
Proof. unfold prefix_substitution. cbn. now rewrite prefix_empty. Qed.

(** The example of the specification. *)
Example rewrite_ipfs_abc_def :
  rewrite_ipfs (PyStr "ipfs://abc/def") = Ret (PyStr "https://ipfs.io/ipfs/abc/def").
Proof. reflexivity. Qed.

(** C3 (code defect): the rewrite is meant as a substitution of the prefix,
    but [str.replace] exchanges every occurrence of [ipfs://] in the string.
    On [ipfs://a/ipfs://b] the code produces
    [https://ipfs.io/ipfs/a/https://ipfs.io/ipfs/b], whereas the exact
    prefix substitution of the claim is [https://ipfs.io/ipfs/a/ipfs://b]. *)
Theorem C3_rewrite_changes_later_occurrences :
  rewrite_ipfs (PyStr "ipfs://a/ipfs://b")
  = Ret (PyStr "https://ipfs.io/ipfs/a/https://ipfs.io/ipfs/b")
  /\ prefix_substitution "ipfs://a/ipfs://b" = "https://ipfs.io/ipfs/a/ipfs://b"
  /\ rewrite_ipfs (PyStr "ipfs://a/ipfs://b")
     <> Ret (PyStr (prefix_substitution "ipfs://a/ipfs://b")).
Proof. split; [reflexivity | split; [reflexivity | discriminate]]. Qed.

(** ** The fetch pipeline *)

Section FetchFacts.

Variable json_loads : string -> option pyval.
Variable Image_open : string -> option Image.

Local Abbreviation fetch := (fetch_metadata_and_image json_loads Image_open).


Lemma fetch_image_gets http_image image_uri :
  http_gets (fst (fetch_image Image_open http_image image_uri)) = [image_uri].
Proof.
  unfold fetch_image, requests_get, raise_for_status.
  destruct (http_image image_uri) as [e|r]; cbn; [reflexivity|].
  destruct (is_error_status (status_code r)); cbn; [reflexivity|].
  destruct (Image_open (content r)); reflexivity.
Qed.

(** C9: when the [image] field of the metadata holds something other than
    a string, [startswith] raises [AttributeError], the second handler of
    [fetch_metadata_and_image] prints it, and the fetch returns [None]
    after its single request. *)
Theorem C9_image_not_a_string_yields_none
    http_meta http_image metadata_uri r kvs v :
  http_meta metadata_uri = GetResponse r ->
  is_error_status (status_code r) = false ->
  json_loads (content r) = Some (PyDict kvs) ->
  Py.lookup "image" kvs = Some v ->
  is_str v = false ->
  fetch http_meta http_image metadata_uri
  = ([EvHttpGet metadata_uri 5;
      EvPrint (LogMetadata (PyDict kvs));
      EvPrint (LogErrorProcessing AttributeError)], None).
Proof.
  intros Hget Hst Hjs Hv Hstr.
  unfold fetch_metadata_and_image, requests_get, raise_for_status,
    response_json.
  rewrite Hget. cbn. rewrite Hst. cbn. rewrite Hjs. cbn.
  unfold Py.is_key. rewrite Hv. cbn.
  destruct v; try discriminate; reflexivity.
Qed.

(** C10: a metadata body without the [image] field gives [None] and
    leaves the metadata request as the only one; and whenever a second
    request is issued, the metadata request had come back with a status
    that [raise_for_status] accepts and a body that parsed to a mapping
    whose [image] field is a string, the second request being for the
    rewritten value of that field. *)
Theorem C10_image_request_needs_image_field http_meta http_image metadata_uri :
  (forall r metadata,
      http_meta metadata_uri = GetResponse r ->
      is_error_status (status_code r) = false ->
      json_loads (content r) = Some metadata ->
      lacks_field "image" metadata = true ->
      snd (fetch http_meta http_image metadata_uri) = None
      /\ http_gets (fst (fetch http_meta http_image metadata_uri)) = [metadata_uri])
  /\ (http_gets (fst (fetch http_meta http_image metadata_uri)) <> [metadata_uri] ->
      exists r kvs s image_uri,
        http_meta metadata_uri = GetResponse r
        /\ is_error_status (status_code r) = false
        /\ json_loads (content r) = Some (PyDict kvs)
        /\ Py.lookup "image" kvs = Some (PyStr s)
        /\ rewrite_ipfs (PyStr s) = Ret image_uri
        /\ http_gets (fst (fetch http_meta http_image metadata_uri))
           = [metadata_uri; image_uri]).
Proof.
  split.
  - intros r metadata Hget Hst Hjs Hlack.
    unfold fetch_metadata_and_image, requests_get, raise_for_status,
      response_json.
    rewrite Hget. cbn. rewrite Hst. cbn. rewrite Hjs. cbn.
    destruct metadata as [ | b | n | f | s | xs | kvs ]; cbn;
      try (split; reflexivity).
    + unfold print. cbn [encodes Py.prints].
      destruct (Py.has_surrogate s); cbn; [split; reflexivity|].
      destruct (Py.contains "image" s); cbn; split; reflexivity.
    + destruct (existsb (Py.str_eq "image") xs); cbn; split; reflexivity.
    + cbn in Hlack. destruct (Py.is_key "image" kvs); [discriminate|].
      cbn. split; reflexivity.
  - unfold fetch_metadata_and_image, requests_get, raise_for_status,
      response_json.
    destruct (http_meta metadata_uri) as [e|r]; cbn;
      [intros H; now elim H|].
    destruct (is_error_status (status_code r)) eqn:Hst; cbn;
      [intros H; now elim H|].
    destruct (json_loads (content r)) as [metadata|] eqn:Hjs; cbn;
      [|intros H; now elim H].
    destruct metadata as [ | b | n | f | s | xs | kvs ]; cbn;
      try (intros H; now elim H).
    + unfold print. cbn [encodes Py.prints].
      destruct (Py.has_surrogate s); cbn; [intros H; now elim H|].
      destruct (Py.contains "image" s); cbn; intros H; now elim H.
    + destruct (existsb (Py.str_eq "image") xs); cbn; intros H; now elim H.
    + unfold Py.is_key.
      destruct (Py.lookup "image" kvs) as [v|] eqn:Hv; cbn;
        [|intros H; now elim H].
      destruct v as [ | b | n | f | s | xs | kvs' ]; cbn;
        try (intros H; now elim H).
      unfold rewrite_ipfs. cbn [Py.startswith Py.replace].
      pose proof (fetch_image_gets http_image) as Hgets.
      destruct (String.prefix "ipfs://" s) eqn:Hp; cbn [lift bind ret];
        unfold print; cbn [encodes Py.prints].
      * destruct (Py.has_surrogate
                    (Py.str_replace s "ipfs://" "https://ipfs.io/ipfs/"));
          cbn; [intros H; now elim H|].
        intros _. exists r, kvs, s. eexists. rewrite Hp.
        repeat (split; [reflexivity|]).
        specialize (Hgets (PyStr (Py.str_replace s "ipfs://" "https://ipfs.io/ipfs/"))).
        destruct (fetch_image Image_open http_image _) as [t image].
        cbn in *. now rewrite Hgets.
      * destruct (Py.has_surrogate s); cbn; [intros H; now elim H|].
        intros _. exists r, kvs, s. eexists. rewrite Hp.
        repeat (split; [reflexivity|]).
        specialize (Hgets (PyStr s)).
        destruct (fetch_image Image_open http_image _) as [t image].
        cbn in *. now rewrite Hgets.
Qed.

End FetchFacts.

(** ** The receive loop *)

Section ReceiveFacts.

Variable json_loads : string -> option pyval.
Variable Image_open : string -> option Image.

Local Abbreviation fetch := (fetch_metadata_and_image json_loads Image_open).
Local Abbreviation step := (step json_loads Image_open).
Local Abbreviation run := (run json_loads Image_open).

(** C2 (amended): a text that [json.loads] rejects is not absorbed inside
    the receive loop.  The [JSONDecodeError] leaves the [async with]
    block, which closes the connection, and reaches the catch-all clause
    of [subscribe], which prints it as a WebSocket error; nothing is
    fetched or queued.  Unless shutdown was requested, the subscriber then
    sleeps for the current delay and connects again. *)
Theorem C2_parse_failure_ends_connection s message http_meta http_image :
  pc s = Receiving ->
  json_loads message = None ->
  let s1 := goto s AfterTry [EvClose; EvPrint (LogWebSocketError JSONDecodeError)] in
  step s (RecvReply (RecvMessage message) http_meta http_image) = Some s1
  /\ connection_state (pc s1) = Disconnected
  /\ image_queue s1 = image_queue s
  /\ (shutdown_requested s = false ->
      run s1 [Tick; Wake; Tick]
      = Some (goto (with_delay s1 (Z.min (retry_delay s * 2) 30)) Connecting
                [EvPrint (LogReconnecting (retry_delay s));
                 EvSleep (retry_delay s); EvConnect uri])).
Proof.
  intros Hpc Hjs s1.
  assert (Hstep : step s (RecvReply (RecvMessage message) http_meta http_image)
                  = Some s1).
  { unfold step, on_message. rewrite Hpc, Hjs. reflexivity. }
  repeat split; trivial.
  intros Hflag. unfold run, step. cbn.
  rewrite Hflag. cbn. rewrite Hflag. cbn.
  unfold goto, with_delay. cbn. rewrite <- !app_assoc. reflexivity.
Qed.

(** C4: with the queue at capacity, the push of lines 93-96 leaves the
    queue as it was, drops the incoming image, prints the "Queue full"
    line, and returns to the head of the receive loop, from where the
    next message is awaited unless shutdown was requested. *)
Theorem C4_push_on_full_queue_rejected s image :
  pc s = PushCheck image ->
  0 < maxsize (image_queue s) ->
  Q.qsize (image_queue s) = maxsize (image_queue s) ->
  let s1 := goto s InnerCheck [EvPrint LogQueueFull] in
  step s Tick = Some s1
  /\ image_queue s1 = image_queue s
  /\ trace s1 = trace s ++ [EvPrint LogQueueFull]
  /\ connection_state (pc s1) = Subscribed
  /\ (shutdown_requested s = false -> step s1 Tick = Some (goto s1 Receiving [])).
Proof.
  intros Hpc Hpos Hfull s1.
  assert (Hf : Q.full (image_queue s) = true).
  { unfold Q.full. rewrite Hfull.
    apply andb_true_intro. split; [apply Z.ltb_lt | apply Z.leb_le]; lia. }
  repeat split.
  - unfold step. rewrite Hpc, Hf. reflexivity.
  - intros Hflag. unfold step. cbn. now rewrite Hflag.
Qed.


(** A [uri] that is a string with a lone surrogate cannot be printed: the
    [print] of line 88, which no handler inside the loop covers, raises
    [UnicodeEncodeError]; nothing is fetched, the connection is closed and
    the catch-all clause of [subscribe] prints the error. *)
Lemma unprintable_uri_ends_connection
    s message kvs metadata_uri http_meta http_image :
  pc s = Receiving ->
  json_loads message = Some (PyDict kvs) ->
  Py.lookup "uri" kvs = Some metadata_uri ->
  Py.prints metadata_uri = false ->
  step s (RecvReply (RecvMessage message) http_meta http_image)
  = Some (goto s AfterTry
            [EvClose; EvPrint (LogWebSocketError UnicodeEncodeError)]).
Proof.
  intros Hpc Hjs Huri Hpr.
  unfold step, on_message. rewrite Hpc, Hjs. cbn.
  unfold Py.is_key. rewrite Huri. cbn.
  unfold print. cbn [encodes]. rewrite Hpr. reflexivity.
Qed.


End ReceiveFacts.

(** ** Runs of the subscriber *)

Lemma sleeps_app (t1 t2 : Trace) : sleeps (t1 ++ t2) = sleeps t1 ++ sleeps t2.
Proof.
  induction t1 as [|ev t1 IH]; [reflexivity|].
  destruct ev; cbn; now rewrite IH.
Qed.

Lemma connects_app (t1 t2 : Trace) :
  connects (t1 ++ t2) = (connects t1 + connects t2)%nat.
Proof.
  induction t1 as [|ev t1 IH]; [reflexivity|].
  destruct ev; cbn; now rewrite IH.
Qed.

Section RunFacts.

Variable json_loads : string -> option pyval.
Variable Image_open : string -> option Image.

Local Abbreviation fetch := (fetch_metadata_and_image json_loads Image_open).
Local Abbreviation step := (step json_loads Image_open).
Local Abbreviation run := (run json_loads Image_open).
Local Abbreviation subscribe := (subscribe json_loads Image_open).

Lemma run_app s acts1 acts2 :
  run s (acts1 ++ acts2)
  = match run s acts1 with
    | Some s1 => run s1 acts2
    | None => None
    end.
Proof.
  revert s. induction acts1 as [|a acts1 IH]; intros s; [reflexivity|].
  cbn. destruct (step s a); [apply IH | reflexivity].
Qed.

(** *** Backoff over a streak of failed connection attempts *)

Lemma failed_attempt_run s e :
  pc s = OuterCheck ->
  shutdown_requested s = false ->
  run s (failed_attempt e)
  = Some (goto (with_delay s (Z.min (retry_delay s * 2) 30)) OuterCheck
            [EvConnect uri; EvPrint (subscribe_handler e);
             EvPrint (LogReconnecting (retry_delay s)); EvSleep (retry_delay s)]).
Proof.
  intros Hpc Hflag. unfold failed_attempt, run, step. cbn.
  rewrite Hpc, Hflag. cbn. rewrite Hflag. cbn.
  unfold goto, with_delay. cbn. rewrite <- !app_assoc. reflexivity.
Qed.

(** Over any number of failed attempts in a row the subscriber sleeps the
    delays produced by line 108, one per failure. *)
Lemma failure_streak es : forall s,
  pc s = OuterCheck ->
  shutdown_requested s = false ->
  exists s',
    run s (failed_attempts es) = Some s'
    /\ pc s' = OuterCheck
    /\ shutdown_requested s' = false
    /\ retry_delay s' = backoff_from (retry_delay s) (List.length es)
    /\ sleeps (trace s')
       = sleeps (trace s) ++ backoff_delays (retry_delay s) (List.length es).
Proof.
  induction es as [|e es IH]; intros s Hpc Hflag.
  - exists s. cbn. now rewrite app_nil_r.
  - cbn [failed_attempts]. rewrite run_app, (failed_attempt_run s e Hpc Hflag).
    edestruct IH as (s' & Hrun & Hpc' & Hflag' & Hd & Hsl);
      [| | exists s'; split; [exact Hrun|]]; try reflexivity; try exact Hflag.
    repeat split; trivial.
    rewrite Hsl. cbn. rewrite sleeps_app. cbn. now rewrite <- app_assoc.
Qed.

(** From the start: 1, 2, 4, 8, 16, 30, 30, ... *)
Example backoff_delays_seven : backoff_delays 1 7 = [1; 2; 4; 8; 16; 30; 30].
Proof. reflexivity. Qed.

Lemma backoff_from_capped d n : d = 30 -> backoff_from d n = 30.
Proof. revert d. induction n as [|n IH]; intros d ->; [reflexivity | now apply IH]. Qed.

Lemma backoff_from_start n : (5 <= n)%nat -> backoff_from 1 n = 30.
Proof.
  intros H. do 5 (destruct n as [|n]; [lia|]).
  cbn [backoff_from]. now apply backoff_from_capped.
Qed.

(** C1 (code defect): the delay is not reset by a successful subscribe.
    After two failed attempts and a successful connect and subscribe the
    delay is still 4, and when that connection is then closed the
    subscriber sleeps 4 seconds, not 1: the assignment of line 98 sits
    behind the receive loop and is reached only when the loop ends because
    shutdown was requested. *)
Theorem C1_delay_not_reset_by_subscribe (http : Http) :
  exists s1 s2,
    subscribe (failed_attempts [OSError; OSError] ++ [Tick; ConnectReply SubscribeOk])
    = Some s1
    /\ connection_state (pc s1) = Subscribed
    /\ retry_delay s1 = 4
    /\ run s1 [Tick; RecvReply (RecvRaises ConnectionClosedError) http http; Tick]
       = Some s2
    /\ sleeps (trace s2) = [1; 2; 4].
Proof. do 2 eexists. repeat split; reflexivity. Qed.

(** *** The invariant *)

Lemma put_some q image q' :
  Q.put q image = Some q' ->
  Q.full q = false /\ maxsize q' = maxsize q /\ items q' = items q ++ [image].
Proof.
  unfold Q.put. destruct (Q.full q); [discriminate|].
  intros [= <-]. repeat split.
Qed.

Lemma get_some q image q' :
  Q.get q = Some (image, q') ->
  maxsize q' = maxsize q /\ items q = image :: items q'.
Proof.
  unfold Q.get. destruct (items q) as [|im rest]; [discriminate|].
  intros [= <- <-]. split; reflexivity.
Qed.

Lemma not_full_room q :
  maxsize q = 5 -> Q.full q = false -> Q.qsize q < 5.
Proof.
  unfold Q.full. intros ->. cbn. intros H. apply Z.leb_gt in H. exact H.
Qed.

Lemma room_not_full q :
  Q.qsize q < maxsize q -> Q.full q = false.
Proof.
  intros H. unfold Q.full. apply andb_false_intro2. apply Z.leb_gt. exact H.
Qed.

Lemma qsize_app q q' image :
  items q' = items q ++ [image] -> Q.qsize q' = Q.qsize q + 1.
Proof.
  unfold Q.qsize. intros ->. rewrite length_app. cbn. lia.
Qed.

Lemma qsize_cons q q' image :
  items q = image :: items q' -> Q.qsize q = Q.qsize q' + 1.
Proof.
  unfold Q.qsize. intros ->. cbn [List.length]. lia.
Qed.

Lemma init_inv : Inv init.
Proof.
  unfold Inv, init, Q.qsize. cbn. repeat split; try lia; intros; discriminate.
Qed.

(** Splits a step into the cases of its definition. *)
Ltac step_cases H :=
  unfold step, update_task in H;
  repeat match type of H with
         | context [match ?x with _ => _ end] =>
             destruct x eqn:?; try discriminate H
         end;
  injection H as <-.

Ltac state_simpl :=
  cbn [pc retry_delay shutdown_requested image_queue trace
       goto with_delay with_queue handle_shutdown_signal] in *.

Lemma step_inv s a s' : Inv s -> step s a = Some s' -> Inv s'.
Proof.
  intros (Hm & Hq & Hput & Hd) Hs.
  step_cases Hs; unfold Inv; state_simpl;
    repeat match goal with
           | H : Q.put _ _ = Some _ |- _ =>
               apply put_some in H; destruct H as (? & ? & ?)
           | H : Q.get _ = Some _ |- _ =>
               apply get_some in H; destruct H as (? & ?)
           | H : negb _ = true |- _ => apply negb_true_iff in H
           | H : items _ = items _ ++ [_] |- _ => apply qsize_app in H
           | H : items _ = _ :: items _ |- _ => apply qsize_cons in H
           end;
    try (pose proof (Hput _ eq_refl));
    repeat split; try lia; try congruence;
    try (intros; discriminate);
    try (intros; apply not_full_room; assumption);
    try (intros image Hpc; specialize (Hput _ Hpc); lia).
Qed.

Lemma run_inv acts : forall s s', Inv s -> run s acts = Some s' -> Inv s'.
Proof.
  induction acts as [|a acts IH]; intros s s' Hinv Hrun; cbn in Hrun.
  - now injection Hrun as <-.
  - destruct (step s a) as [s1|] eqn:Hs; [|discriminate].
    exact (IH _ _ (step_inv _ _ _ Hinv Hs) Hrun).
Qed.

(** The delay stays within 1 and 30 seconds. *)
Lemma retry_delay_bounds world s :
  subscribe world = Some s -> 1 <= retry_delay s <= 30.
Proof. intros H. now destruct (run_inv _ _ _ init_inv H) as (_ & _ & _ & Hd). Qed.

(** C5: in every state reached from the start, whatever the order of the
    steps of the subscriber, of the signal handler and of [update_task],
    the queue holds at most five images and its [maxsize] is still 5. *)
Theorem C5_queue_within_capacity world s :
  subscribe world = Some s ->
  (List.length (items (image_queue s)) <= 5)%nat
  /\ maxsize (image_queue s) = 5.
Proof.
  intros H. destruct (run_inv _ _ _ init_inv H) as (Hm & Hq & _ & _).
  unfold Q.qsize in Hq. split; [lia | exact Hm].
Qed.

(** *** After the flag is set *)

Lemma fetch_image_connects http image_uri :
  connects (fst (fetch_image Image_open http image_uri)) = 0%nat.
Proof.
  unfold fetch_image, requests_get, raise_for_status.
  destruct (http image_uri) as [e|r]; cbn; [reflexivity|].
  destruct (is_error_status (status_code r)); cbn; [reflexivity|].
  destruct (Image_open (content r)); reflexivity.
Qed.

Lemma fetch_connects http_meta http_image metadata_uri :
  connects (fst (fetch http_meta http_image metadata_uri)) = 0%nat.
Proof.
  unfold fetch_metadata_and_image, requests_get, raise_for_status, response_json.
  destruct (http_meta metadata_uri) as [e|r]; cbn; [reflexivity|].
  destruct (is_error_status (status_code r)); cbn; [reflexivity|].
  destruct (json_loads (content r)) as [metadata|]; cbn; [|reflexivity].
  destruct metadata as [ | b | n | f | s | xs | kvs ]; cbn; try reflexivity.
  - unfold print. cbn [encodes Py.prints].
    destruct (Py.has_surrogate s); cbn; [reflexivity|].
    destruct (Py.contains "image" s); reflexivity.
  - destruct (existsb (Py.str_eq "image") xs); reflexivity.
  - unfold Py.is_key.
    destruct (Py.lookup "image" kvs) as [v|]; cbn; [|reflexivity].
    destruct v as [ | b | n | f | s | xs | kvs' ]; cbn; try reflexivity.
    unfold rewrite_ipfs. cbn [Py.startswith Py.replace].
    destruct (String.prefix "ipfs://" s); cbn [lift bind ret];
      unfold print; cbn [encodes Py.prints];
      match goal with
      | |- context [Py.has_surrogate ?x] => destruct (Py.has_surrogate x)
      end; cbn; try reflexivity;
      match goal with
      | |- context [fetch_image Image_open http_image ?u] =>
          pose proof (fetch_image_connects http_image u) as Hc;
          destruct (fetch_image Image_open http_image u) as [t image]
      end; cbn in *; exact Hc.
Qed.

Lemma on_message_connects message http_meta http_image :
  connects (fst (on_message json_loads Image_open message http_meta http_image))
  = 0%nat.
Proof.
  unfold on_message.
  destruct (json_loads message) as [data|]; cbn; [|reflexivity].
  destruct data as [ | b | n | f | s | xs | kvs ]; cbn; try reflexivity.
  - destruct (Py.contains "uri" s); reflexivity.
  - destruct (existsb (Py.str_eq "uri") xs); reflexivity.
  - unfold Py.is_key.
    destruct (Py.lookup "uri" kvs) as [metadata_uri|]; cbn; [|reflexivity].
    unfold print. cbn [encodes].
    destruct (Py.prints metadata_uri); cbn; [|reflexivity].
    pose proof (fetch_connects http_meta http_image metadata_uri) as Hc.
    destruct (fetch http_meta http_image metadata_uri) as [t image].
    cbn in *. exact Hc.
Qed.

(** One step taken while the flag is set: the flag stays set, no connection
    is attempted, a step of the subscriber brings it closer to its end, a
    message is only taken while it was awaited, and the subscriber removes
    nothing from the queue. *)
Lemma step_shutdown s a s' :
  shutdown_requested s = true ->
  step s a = Some s' ->
  shutdown_requested s' = true
  /\ connects (trace s') = connects (trace s)
  /\ (if is_subscriber_step a
      then (rank (pc s') < rank (pc s))%nat
      else pc s' = pc s)
  /\ (is_recv a = true -> pc s = Receiving)
  /\ (is_update_task a = false ->
      exists new, items (image_queue s') = items (image_queue s) ++ new).
Proof.
  intros Hflag Hs.
  step_cases Hs; state_simpl; try congruence;
    repeat match goal with
           | H : on_message _ _ ?m ?hm ?hi = (?t, _) |- _ =>
               let Hc := fresh "Hc" in
               pose proof (on_message_connects m hm hi) as Hc;
               rewrite H in Hc; cbn in Hc; clear H
           | H : Q.put _ _ = Some _ |- _ =>
               apply put_some in H; destruct H as (? & ? & ?)
           | H : pc s = _ |- _ => rewrite H
           end;
    rewrite ?connects_app; cbn [rank is_subscriber_step is_recv is_update_task];
    repeat split; trivial; try (cbn; lia); try (intros; discriminate);
    try (intros _; exists []; now rewrite app_nil_r);
    try (intros _; eexists; eassumption).
  rewrite Hflag in *. discriminate.
Qed.

Lemma rank_bound p : (rank p <= 6)%nat.
Proof. destruct p; cbn; lia. Qed.

Lemma rank_receiving p : (rank p < 6)%nat -> p <> Receiving.
Proof. intros H ->. cbn in H. lia. Qed.

Lemma rank_done p : p = Done <-> rank p = 0%nat.
Proof. split; [now intros -> | destruct p; cbn; intros; try lia; reflexivity]. Qed.

Lemma run_shutdown acts : forall s s',
  shutdown_requested s = true ->
  run s acts = Some s' ->
  shutdown_requested s' = true
  /\ connects (trace s') = connects (trace s)
  /\ (subscriber_steps acts + rank (pc s') <= rank (pc s))%nat
  /\ (receives acts <= 1)%nat
  /\ (pc s <> Receiving -> receives acts = 0%nat)
  /\ (existsb is_update_task acts = false ->
      exists new, items (image_queue s') = items (image_queue s) ++ new).
Proof.
  induction acts as [|a acts IH]; intros s s' Hflag Hrun; cbn in Hrun.
  - injection Hrun as <-. cbn. repeat split; trivial; try lia.
    intros _. exists []. now rewrite app_nil_r.
  - destruct (step s a) as [s1|] eqn:Hs; [|discriminate].
    destruct (step_shutdown _ _ _ Hflag Hs) as (Hflag1 & Hc1 & Hr1 & Hrecv1 & Hq1).
    destruct (IH _ _ Hflag1 Hrun) as (Hflag' & Hc' & Hr' & Hn' & Hz' & Hq').
    assert (Hnext : pc s <> Receiving \/ is_recv a = true -> pc s1 <> Receiving).
    { intros Hor. destruct (is_subscriber_step a) eqn:Hsub.
      - apply rank_receiving. pose proof (rank_bound (pc s)). lia.
      - destruct Hor as [Hne | Hrecv]; [congruence|].
        destruct a; discriminate. }
    unfold subscriber_steps, receives in *. cbn [filter existsb].
    repeat split.
    + exact Hflag'.
    + congruence.
    + destruct (is_subscriber_step a); cbn [List.length]; [lia|].
      rewrite <- Hr1. exact Hr'.
    + destruct (is_recv a) eqn:Hrecv; [|exact Hn'].
      cbn [List.length]. rewrite Hz'; [lia|]. apply Hnext. now right.
    + intros Hne. destruct (is_recv a) eqn:Hrecv.
      * elim Hne. now apply Hrecv1.
      * apply Hz'. apply Hnext. now left.
    + intros Hno. apply orb_false_elim in Hno. destruct Hno as [Ha Hrest].
      destruct (Hq1 Ha) as [new1 Hnew1].
      destruct (Hq' Hrest) as [new2 Hnew2].
      exists (new1 ++ new2). now rewrite Hnew2, Hnew1, app_assoc.
Qed.

(** Whatever the awaited operation comes back with, the subscriber takes
    its next step: it is never stuck and nothing escapes its handlers. *)
Lemma awaited_enabled s a :
  Inv s -> awaited (pc s) a = true -> exists s', step s a = Some s'.
Proof.
  intros (Hm & Hq & Hput & Hd) Haw. unfold step.
  destruct (pc s) eqn:Hpc; destruct a as [ | o | o hm hi | | | due ];
    try discriminate Haw; cbn.
  - destruct (shutdown_requested s); eexists; reflexivity.
  - destruct o; eexists; reflexivity.
  - destruct (shutdown_requested s); eexists; reflexivity.
  - destruct o as [e|message]; [eexists; reflexivity|].
    destruct (on_message json_loads Image_open message hm hi) as [t [e|[im|]]];
      eexists; reflexivity.
  - destruct (negb (Q.full (image_queue s))); eexists; reflexivity.
  - unfold Q.put. rewrite room_not_full; [eexists; reflexivity|].
    rewrite Hm. now apply (Hput image).
  - destruct (negb (shutdown_requested s)); eexists; reflexivity.
  - eexists; reflexivity.
Qed.

(** C8: from the moment the flag is set, the subscriber ends within as
    many of its own steps as the rank of its program point, six at most,
    and it is never stuck or raising on the way: whatever the awaited
    operation comes back with, the next step is taken.  It attempts no
    further connection, takes at most one more message from the socket (none
    unless it was waiting for one), and removes nothing from the queue,
    whose capacity stays 5. *)
Theorem C8_shutdown_observed world s acts s' :
  subscribe world = Some s ->
  shutdown_requested s = true ->
  run s acts = Some s' ->
  ((subscriber_steps acts + rank (pc s') <= rank (pc s))%nat
   /\ (rank (pc s) <= 6)%nat
   /\ (pc s' = Done <-> rank (pc s') = 0%nat))
  /\ (pc s' <> Done ->
      (exists a, awaited (pc s') a = true)
      /\ forall a, awaited (pc s') a = true -> exists s'', step s' a = Some s'')
  /\ connects (trace s') = connects (trace s)
  /\ ((receives acts <= 1)%nat
      /\ (pc s <> Receiving -> receives acts = 0%nat))
  /\ ((existsb is_update_task acts = false ->
       exists new, items (image_queue s') = items (image_queue s) ++ new)
      /\ maxsize (image_queue s') = 5).
Proof.
  intros Hpre Hflag Hrun.
  pose proof (run_inv _ _ _ init_inv Hpre) as Hinv.
  pose proof (run_inv _ _ _ Hinv Hrun) as Hinv'.
  destruct (run_shutdown _ _ _ Hflag Hrun) as (_ & Hc & Hr & Hn & Hz & Hq).
  split; [|split; [|split; [|split; [|split]]]].
  - split; [exact Hr | split; [apply rank_bound | apply rank_done]].
  - intros Hnd. split; [|intros a; now apply awaited_enabled].
    destruct (pc s'); try (now exists Tick).
    + now exists (ConnectReply SubscribeOk).
    + now exists (RecvReply (RecvRaises OSError) (fun _ => GetRaises OSError)
                    (fun _ => GetRaises OSError)).
    + now exists Wake.
  - exact Hc.
  - split; assumption.
  - exact Hq.
  - now destruct Hinv' as (Hm & _).
Qed.

End RunFacts.

(** ** The statements at concrete inputs *)

(** C2, as stated, fails: the text [not json] is rejected by [json.loads];
    received on a fresh subscription it takes the subscriber out of the
    receive loop, the connection is closed, and after the backoff sleep a
    second connection is attempted. *)
Lemma C2_parse_failure_reconnects :
  Sample.json_loads "not json" = None
  /\ connection_state (pc Sample.receiving) = Subscribed
  /\ exists s1 s2,
      step Sample.json_loads Sample.Image_open Sample.receiving
        (RecvReply (RecvMessage "not json") Sample.timeout Sample.timeout) = Some s1
      /\ connection_state (pc s1) = Disconnected
      /\ run Sample.json_loads Sample.Image_open s1 [Tick; Wake; Tick] = Some s2
      /\ trace s2 = [EvConnect uri; EvSend payload; EvPrint LogSubscribed;
                     EvClose; EvPrint (LogWebSocketError JSONDecodeError);
                     EvPrint (LogReconnecting 1); EvSleep 1; EvConnect uri].
Proof.
  split; [reflexivity|]. split; [reflexivity|].
  do 2 eexists. repeat split; reflexivity.
Qed.

Lemma C2_witness :
  pc Sample.receiving = Receiving
  /\ Sample.json_loads "not json" = None
  /\ step Sample.json_loads Sample.Image_open Sample.receiving
       (RecvReply (RecvMessage "not json") Sample.timeout Sample.timeout)
     = Some (goto Sample.receiving AfterTry
               [EvClose; EvPrint (LogWebSocketError JSONDecodeError)]).
Proof.
  split; [reflexivity|]. split; [reflexivity|].
  exact (proj1 (C2_parse_failure_ends_connection
                  Sample.json_loads Sample.Image_open Sample.receiving "not json"
                  Sample.timeout Sample.timeout eq_refl eq_refl)).
Defined.

Lemma C4_witness :
  pc Sample.pushing = PushCheck (Sample.picture "f")
  /\ 0 < maxsize (image_queue Sample.pushing)
  /\ Q.qsize (image_queue Sample.pushing) = maxsize (image_queue Sample.pushing)
  /\ step Sample.json_loads Sample.Image_open Sample.pushing Tick
     = Some (goto Sample.pushing InnerCheck [EvPrint LogQueueFull]).
Proof.
  split; [reflexivity|]. split; [reflexivity|]. split; [reflexivity|].
  exact (proj1 (C4_push_on_full_queue_rejected
                  Sample.json_loads Sample.Image_open Sample.pushing
                  (Sample.picture "f") eq_refl eq_refl eq_refl)).
Defined.

Lemma C5_witness :
  exists s,
    subscribe Sample.json_loads Sample.Image_open
      [Tick; ConnectReply SubscribeOk; Tick;
       RecvReply (RecvMessage Sample.msg_uri)
         (Sample.ok Sample.body_http) (Sample.ok Sample.ppm);
       Tick; UpdateTask false; Tick; Signal] = Some s
    /\ (List.length (items (image_queue s)) <= 5)%nat
    /\ maxsize (image_queue s) = 5.
Proof.
  eexists.
  refine ((fun H => conj H (C5_queue_within_capacity
                              Sample.json_loads Sample.Image_open _ _ H)) _).
  reflexivity.
Defined.





Lemma C8_witness :
  subscribe Sample.json_loads Sample.Image_open
    [Tick; ConnectReply SubscribeOk; Tick; Signal] = Some Sample.signalled
  /\ shutdown_requested Sample.signalled = true
  /\ run Sample.json_loads Sample.Image_open Sample.signalled
       [RecvReply (RecvMessage Sample.msg_no_uri) Sample.timeout Sample.timeout;
        Tick; Tick; Tick] = Some Sample.finished
  /\ connects (trace Sample.finished) = connects (trace Sample.signalled).
Proof.
  split; [reflexivity|]. split; [reflexivity|]. split; [reflexivity|].
  exact (proj1 (proj2 (proj2 (C8_shutdown_observed
                  Sample.json_loads Sample.Image_open
                  [Tick; ConnectReply SubscribeOk; Tick; Signal]
                  Sample.signalled
                  [RecvReply (RecvMessage Sample.msg_no_uri)
                     Sample.timeout Sample.timeout; Tick; Tick; Tick]
                  Sample.finished eq_refl eq_refl eq_refl)))).
Defined.

Lemma C9_witness :
  Sample.ok Sample.body_image_number Sample.meta_url
  = GetResponse {| status_code := 200; content := Sample.body_image_number |}
  /\ is_error_status 200 = false
  /\ Sample.json_loads Sample.body_image_number = Some (PyDict [("image", PyInt 7)])
  /\ Py.lookup "image" [("image", PyInt 7)] = Some (PyInt 7)
  /\ is_str (PyInt 7) = false
  /\ fetch_metadata_and_image Sample.json_loads Sample.Image_open
       (Sample.ok Sample.body_image_number) (Sample.ok Sample.ppm) Sample.meta_url
     = ([EvHttpGet Sample.meta_url 5;
         EvPrint (LogMetadata (PyDict [("image", PyInt 7)]));
         EvPrint (LogErrorProcessing AttributeError)], None).
Proof.
  do 5 (split; [reflexivity|]).
  exact (C9_image_not_a_string_yields_none
           Sample.json_loads Sample.Image_open
           (Sample.ok Sample.body_image_number) (Sample.ok Sample.ppm) Sample.meta_url
           {| status_code := 200; content := Sample.body_image_number |}
           [("image", PyInt 7)] (PyInt 7) eq_refl eq_refl eq_refl eq_refl eq_refl).
Defined.

Lemma C10_witness :
  Sample.ok Sample.body_no_image Sample.meta_url
  = GetResponse {| status_code := 200; content := Sample.body_no_image |}
  /\ is_error_status 200 = false
  /\ Sample.json_loads Sample.body_no_image = Some (PyDict [("name", PyStr "token")])
  /\ lacks_field "image" (PyDict [("name", PyStr "token")]) = true
  /\ snd (fetch_metadata_and_image Sample.json_loads Sample.Image_open
            (Sample.ok Sample.body_no_image) (Sample.ok Sample.ppm) Sample.meta_url)
     = None
  /\ http_gets (fst (fetch_metadata_and_image Sample.json_loads Sample.Image_open
                       (Sample.ok Sample.body_no_image) (Sample.ok Sample.ppm)
                       Sample.meta_url))
     = [Sample.meta_url].
Proof.
  do 4 (split; [reflexivity|]).
  exact (proj1 (C10_image_request_needs_image_field
                  Sample.json_loads Sample.Image_open
                  (Sample.ok Sample.body_no_image) (Sample.ok Sample.ppm)
                  Sample.meta_url)
           {| status_code := 200; content := Sample.body_no_image |}
           (PyDict [("name", PyStr "token")]) eq_refl eq_refl eq_refl eq_refl).
Defined.

(** * Further properties of the code *)

(** ** The fetch functions *)

Section FetchMore.

Variable json_loads : string -> option pyval.
Variable Image_open : string -> option Image.

Local Abbreviation fetch := (fetch_metadata_and_image json_loads Image_open).
Local Arguments rewrite_ipfs : simpl never.

(** [fetch_image] returns an image exactly when the request comes back
    with a status that [raise_for_status] accepts and bytes that PIL
    decodes; the image returned is the decoded one resized to 400 x 400. *)
Theorem fetch_image_some_iff http image_uri image :
  snd (fetch_image Image_open http image_uri) = Some image
  <-> exists r decoded,
        http image_uri = GetResponse r
        /\ is_error_status (status_code r) = false
        /\ Image_open (content r) = Some decoded
        /\ image = resize decoded (400, 400).
Proof.
  unfold fetch_image, requests_get, raise_for_status. split.
  - destruct (http image_uri) as [e|r]; cbn; [discriminate|].
    destruct (is_error_status (status_code r)) eqn:Hst; cbn; [discriminate|].
    destruct (Image_open (content r)) as [decoded|] eqn:Himg; cbn;
      [|discriminate].
    intros [= <-]. now exists r, decoded.
  - intros (r & decoded & -> & Hst & Himg & ->). cbn.
    rewrite Hst. cbn. rewrite Himg. reflexivity.
Qed.


Lemma fetch_image_events http image_uri :
  forallb is_fetch_event (fst (fetch_image Image_open http image_uri)) = true
  /\ http_gets (fst (fetch_image Image_open http image_uri)) = [image_uri].
Proof.
  unfold fetch_image, requests_get, raise_for_status.
  destruct (http image_uri) as [e|r]; cbn; [now split|].
  destruct (is_error_status (status_code r)); cbn; [now split|].
  destruct (Image_open (content r)); now split.
Qed.

(** Whatever the network answers, [fetch_metadata_and_image] only prints
    and issues HTTP requests, each with the 5-second timeout; it issues one
    or two requests, the first of them for the metadata URI. *)
Theorem fetch_requests http_meta http_image metadata_uri :
  let t := fst (fetch http_meta http_image metadata_uri) in
  forallb is_fetch_event t = true
  /\ (http_gets t = [metadata_uri]
      \/ exists image_uri, http_gets t = [metadata_uri; image_uri]).
Proof.
  unfold fetch_metadata_and_image, requests_get, raise_for_status, response_json.
  destruct (http_meta metadata_uri) as [e|r]; cbn; [now split; [|left]|].
  destruct (is_error_status (status_code r)); cbn; [now split; [|left]|].
  destruct (json_loads (content r)) as [metadata|]; cbn; [|now split; [|left]].
  destruct metadata as [ | b | n | f | s | xs | kvs ]; cbn;
    try (now split; [|left]).
  - unfold print. cbn [encodes Py.prints].
    destruct (Py.has_surrogate s); cbn; [now split; [|left]|].
    destruct (Py.contains "image" s); cbn; now split; [|left].
  - destruct (existsb (Py.str_eq "image") xs); cbn; now split; [|left].
  - unfold Py.is_key.
    destruct (Py.lookup "image" kvs) as [v|]; cbn; [|now split; [|left]].
    destruct v as [ | b | n | f | s | xs | kvs' ]; cbn; try (now split; [|left]).
    destruct (rewrite_ipfs (PyStr s)) as [e|image_uri]; cbn;
      [now split; [|left]|].
    unfold print. cbn [encodes].
    destruct (Py.prints image_uri); cbn; [|now split; [|left]].
    destruct (fetch_image_events http_image image_uri) as [Hev Hgets].
    destruct (fetch_image Image_open http_image image_uri) as [t got].
    cbn in *. split; [exact Hev|]. right. exists image_uri. now rewrite Hgets.
Qed.

End FetchMore.

(** ** The gateway rewrite *)

Lemma prefix_split (p s : string) :
  String.prefix p s = true -> s = (p ++ Py.drop (String.length p) s)%string.
Proof.
  revert s. induction p as [|a p IH]; intros s H; [reflexivity|].
  destruct s as [|b s]; [discriminate|].
  cbn in H. destruct (ascii_dec a b) as [<-|]; [|discriminate].
  cbn. f_equal. now apply IH.
Qed.

(** On a string in which [ipfs://] occurs nowhere behind a leading
    [ipfs://], the rewrite of lines 34-35 is the substitution of the prefix:
    the gateway address followed by the rest of the string, and the string
    itself when it does not start with [ipfs://]. *)
Theorem rewrite_ipfs_prefix_substitution (s : string) :
  (String.prefix "ipfs://" s = true -> Py.contains "ipfs://" (Py.drop 7 s) = false) ->
  rewrite_ipfs (PyStr s) = Ret (PyStr (prefix_substitution s)).
Proof.
  intros H. destruct (String.prefix "ipfs://" s) eqn:Hp.
  - rewrite (prefix_split _ _ Hp). change (String.length "ipfs://") with 7%nat.
    rewrite rewrite_ipfs_single by now apply H.
    now rewrite prefix_substitution_ipfs.
  - rewrite rewrite_ipfs_other by exact Hp.
    unfold prefix_substitution. now rewrite Hp.
Qed.

(** Whatever the string, the rewritten URI does not start with [ipfs://],
    so rewriting it again changes nothing. *)
Theorem rewrite_ipfs_result_not_ipfs (s : string) :
  exists s',
    rewrite_ipfs (PyStr s) = Ret (PyStr s')
    /\ String.prefix "ipfs://" s' = false
    /\ rewrite_ipfs (PyStr s') = Ret (PyStr s').
Proof.
  destruct (String.prefix "ipfs://" s) eqn:Hp.
  - exists (Py.str_replace s "ipfs://" "https://ipfs.io/ipfs/").
    assert (Hs : String.prefix "ipfs://"
                   (Py.str_replace s "ipfs://" "https://ipfs.io/ipfs/") = false).
    { destruct s as [|c s]; [discriminate|].
      unfold Py.str_replace. cbn [Py.replace_from]. rewrite Hp. reflexivity. }
    split; [|split; [exact Hs | now apply rewrite_ipfs_other]].
    unfold rewrite_ipfs. cbn [Py.startswith]. now rewrite Hp.
  - exists s. split; [|split; [exact Hp|]]; now apply rewrite_ipfs_other.
Qed.

(** ** Runs of the subscriber, continued *)

Lemma http_gets_app (t1 t2 : Trace) :
  http_gets (t1 ++ t2) = http_gets t1 ++ http_gets t2.
Proof.
  induction t1 as [|ev t1 IH]; [reflexivity|].
  destruct ev; cbn; now rewrite IH.
Qed.

Lemma sends_app (t1 t2 : Trace) : sends (t1 ++ t2) = (sends t1 + sends t2)%nat.
Proof.
  induction t1 as [|ev t1 IH]; [reflexivity|].
  destruct ev; cbn; now rewrite IH.
Qed.

Lemma closes_app (t1 t2 : Trace) : closes (t1 ++ t2) = (closes t1 + closes t2)%nat.
Proof.
  induction t1 as [|ev t1 IH]; [reflexivity|].
  destruct ev; cbn; now rewrite IH.
Qed.

(** A trace of fetch events holds no sleep, connect, send or close. *)
Lemma fetch_events_quiet (t : Trace) :
  forallb is_fetch_event t = true ->
  sleeps t = [] /\ connects t = 0%nat /\ sends t = 0%nat /\ closes t = 0%nat.
Proof.
  induction t as [|ev t IH]; [now repeat split|].
  cbn [forallb]. intros H. apply andb_prop in H. destruct H as [Hev Ht].
  destruct ev; try discriminate; cbn; now apply IH.
Qed.

Lemma backoff_from_succ d n :
  backoff_from d (S n) = Z.min (backoff_from d n * 2) 30.
Proof.
  revert d. induction n as [|n IH]; intros d; [reflexivity|].
  change (backoff_from d (S (S n))) with (backoff_from (Z.min (d * 2) 30) (S n)).
  now rewrite IH.
Qed.

Lemma backoff_delays_snoc d n :
  backoff_delays d (S n) = backoff_delays d n ++ [backoff_from d n].
Proof.
  revert d. induction n as [|n IH]; intros d; [reflexivity|].
  change (backoff_delays d (S (S n)))
    with (d :: backoff_delays (Z.min (d * 2) 30) (S n)).
  rewrite IH. reflexivity.
Qed.

Lemma backoff_delays_length d n : List.length (backoff_delays d n) = n.
Proof. revert d. induction n as [|n IH]; intros d; cbn; [reflexivity | now rewrite IH]. Qed.

Lemma backoff_delays_nth d n k :
  (k < n)%nat -> nth k (backoff_delays d n) 0 = backoff_from d k.
Proof.
  revert d k. induction n as [|n IH]; intros d k Hk; [lia|].
  destruct k as [|k]; [reflexivity|]. cbn. apply IH. lia.
Qed.

(** Line 108 applied [n] times: doubling, capped at 30. *)
Lemma backoff_from_closed d n :
  1 <= d <= 30 -> backoff_from d n = Z.min (d * 2 ^ Z.of_nat n) 30.
Proof.
  revert d. induction n as [|n IH]; intros d Hd.
  - cbn. lia.
  - cbn [backoff_from]. rewrite IH by lia.
    rewrite Nat2Z.inj_succ, Z.pow_succ_r by lia.
    assert (Hp : 1 <= 2 ^ Z.of_nat n) by (apply Z.pow_le_mono_r with (b := 0); lia).
    destruct (Z.min_spec (d * 2) 30) as [[H ->]|[H ->]]; [f_equal; lia|].
    rewrite !Z.min_r; nia.
Qed.

Section RunMore.

Variable json_loads : string -> option pyval.
Variable Image_open : string -> option Image.

Local Abbreviation fetch := (fetch_metadata_and_image json_loads Image_open).
Local Abbreviation on_message := (on_message json_loads Image_open).
Local Abbreviation step := (step json_loads Image_open).
Local Abbreviation run := (run json_loads Image_open).
Local Abbreviation subscribe := (subscribe json_loads Image_open).
Local Abbreviation put_log := (put_log json_loads Image_open).
Local Abbreviation got_log := (got_log json_loads Image_open).
Local Arguments rewrite_ipfs : simpl never.

(** A property kept by every step holds along every run. *)
Lemma run_preserves (P : State -> Prop) :
  (forall s a s', P s -> step s a = Some s' -> P s') ->
  forall acts s s', P s -> run s acts = Some s' -> P s'.
Proof.
  intros Hstep. induction acts as [|a acts IH]; intros s s' HP Hrun; cbn in Hrun.
  - now injection Hrun as <-.
  - destruct (step s a) as [s1|] eqn:Hs; [|discriminate].
    exact (IH _ _ (Hstep _ _ _ HP Hs) Hrun).
Qed.

Lemma fetch_image_size http image_uri image :
  snd (fetch_image Image_open http image_uri) = Some image ->
  size image = (400, 400).
Proof.
  unfold fetch_image, requests_get, raise_for_status.
  destruct (http image_uri) as [e|r]; cbn; [discriminate|].
  destruct (is_error_status (status_code r)); cbn; [discriminate|].
  destruct (Image_open (content r)); cbn; [|discriminate].
  now intros [= <-].
Qed.

(** What one fetch can print and request, and where its image comes from. *)
Lemma fetch_shape http_meta http_image metadata_uri :
  forallb is_fetch_event (fst (fetch http_meta http_image metadata_uri)) = true
  /\ (List.length (http_gets (fst (fetch http_meta http_image metadata_uri))) <= 2)%nat
  /\ forall image,
       snd (fetch http_meta http_image metadata_uri) = Some image ->
       size image = (400, 400).
Proof.
  unfold fetch_metadata_and_image, requests_get, raise_for_status, response_json.
  destruct (http_meta metadata_uri) as [e|r]; cbn;
    [repeat split; try lia; discriminate|].
  destruct (is_error_status (status_code r)); cbn;
    [repeat split; try lia; discriminate|].
  destruct (json_loads (content r)) as [metadata|]; cbn;
    [|repeat split; try lia; discriminate].
  destruct metadata as [ | b | n | f | s | xs | kvs ]; cbn;
    try (repeat split; try lia; discriminate).
  - unfold print. cbn [encodes Py.prints].
    destruct (Py.has_surrogate s); cbn; [repeat split; try lia; discriminate|].
    destruct (Py.contains "image" s); cbn; repeat split; try lia; discriminate.
  - destruct (existsb (Py.str_eq "image") xs); cbn;
      repeat split; try lia; discriminate.
  - unfold Py.is_key.
    destruct (Py.lookup "image" kvs) as [v|]; cbn;
      [|repeat split; try lia; discriminate].
    destruct v as [ | b | n | f | s | xs | kvs' ]; cbn;
      try (unfold rewrite_ipfs; cbn; repeat split; try lia; discriminate).
    destruct (rewrite_ipfs (PyStr s)) as [e|image_uri]; cbn;
      [repeat split; try lia; discriminate|].
    unfold print. cbn [encodes].
    destruct (Py.prints image_uri); cbn; [|repeat split; try lia; discriminate].
    destruct (fetch_image_events Image_open http_image image_uri) as [Hev Hgets].
    pose proof (fetch_image_size http_image image_uri) as Hsize.
    destruct (fetch_image Image_open http_image image_uri) as [t got].
    cbn in *. split; [exact Hev|]. split; [rewrite Hgets; cbn; lia|].
    exact Hsize.
Qed.

(** What handling one message can print and request. *)
Lemma on_message_events message http_meta http_image :
  forallb is_fetch_event (fst (on_message message http_meta http_image)) = true
  /\ (List.length (http_gets (fst (on_message message http_meta http_image))) <= 2)%nat.
Proof.
  unfold on_message.
  destruct (json_loads message) as [data|]; cbn; [|split; [reflexivity | lia]].
  destruct data as [ | b | n | f | s | xs | kvs ]; cbn;
    try (split; [reflexivity | lia]).
  - destruct (Py.contains "uri" s); cbn; split; try reflexivity; lia.
  - destruct (existsb (Py.str_eq "uri") xs); cbn; split; try reflexivity; lia.
  - unfold Py.is_key.
    destruct (Py.lookup "uri" kvs) as [metadata_uri|]; cbn;
      [|split; [reflexivity | lia]].
    unfold print. cbn [encodes].
    destruct (Py.prints metadata_uri); cbn; [|split; [reflexivity | lia]].
    destruct (fetch_shape http_meta http_image metadata_uri) as (Hev & Hgets & _).
    destruct (fetch http_meta http_image metadata_uri) as [t image].
    cbn in *. split; [exact Hev | exact Hgets].
Qed.

(** An image that comes out of the handling of a message is 400 x 400. *)
Lemma on_message_image_size message http_meta http_image t image :
  on_message message http_meta http_image = (t, Ret (Some image)) ->
  size image = (400, 400).
Proof.
  unfold on_message.
  destruct (json_loads message) as [data|]; cbn; [|discriminate].
  destruct (Py.In "uri" data) as [e|has_uri]; cbn; [discriminate|].
  destruct has_uri; cbn; [|discriminate].
  destruct (Py.getitem data "uri") as [e|metadata_uri]; cbn; [discriminate|].
  unfold print. cbn [encodes].
  destruct (Py.prints metadata_uri); cbn; [|discriminate].
  destruct (fetch_shape http_meta http_image metadata_uri) as (_ & _ & Hsize).
  destruct (fetch http_meta http_image metadata_uri) as [t' got].
  intros [= _ ->]. now apply Hsize.
Qed.

Ltac split_step H :=
  unfold step, update_task in H;
  repeat match type of H with
         | context [match ?x with _ => _ end] =>
             destruct x eqn:?; try discriminate H
         end;
  injection H as <-.

Ltac reduce_state :=
  cbn [pc retry_delay shutdown_requested image_queue trace
       goto with_delay with_queue handle_shutdown_signal] in *.

(** Brings in what is known of the trace of a handled message. *)
Ltac message_facts :=
  repeat match goal with
         | H : on_message ?m ?hm ?hi = (?t, _) |- _ =>
             let Hev := fresh "Hev" in
             let Hn := fresh "Hn" in
             destruct (on_message_events m hm hi) as [Hev Hn];
             rewrite H in Hev, Hn; cbn [fst] in Hev, Hn;
             let Hq := fresh "Hq" in
             pose proof (fetch_events_quiet t Hev) as Hq;
             destruct Hq as (? & ? & ? & ?);
             revert H
         end; intros.

(** *** The delays slept *)

Lemma step_backoff_inv s a s' :
  backoff_inv s -> step s a = Some s' -> backoff_inv s'.
Proof.
  unfold backoff_inv. intros [Hsl Hd] Hs.
  split_step Hs; reduce_state; message_facts;
    rewrite ?sleeps_app; cbn [sleeps];
    repeat match goal with
           | H : sleeps _ = [] |- _ => rewrite H
           | H : pc s = _ |- _ => rewrite H in Hd
           end;
    rewrite ?app_nil_r;
    try (split; [exact Hsl | solve [exact Hd | intros; discriminate]]).
  all: repeat match goal with
              | H : negb _ = true |- _ => apply negb_true_iff in H
              | H : negb _ = false |- _ => apply negb_false_iff in H
              end.
  all: try (split; [exact Hsl | intros Hf; solve [congruence | exact (Hd Hf)]]).
  all: try match type of Hd with
           | false = false -> _ => specialize (Hd eq_refl)
           end.
  all: try (split; [exact Hsl | intros _; exact Hd]).
  - specialize (Hd Heqb).
    rewrite length_app. cbn [List.length]. rewrite Nat.add_1_r. split.
    + now rewrite backoff_delays_snoc, <- Hsl, <- Hd.
    + intros _. eexists. split; [reflexivity | exact Hd].
  - split; [exact Hsl|]. intros Hf. destruct (Hd Hf) as (k & Hn & Hk).
    now rewrite Hn, backoff_from_succ, <- Hk.
Qed.

Lemma init_backoff_inv : backoff_inv init.
Proof. split; [reflexivity | intros _; reflexivity]. Qed.

(** Over a whole run of [subscribe] the delays slept are those of line 108
    applied again and again from 1, whatever happened on the connections in
    between: the sleep number [k] (counting from 0) lasts [min (2^k) 30]
    seconds. *)
Theorem sleep_delays_double_to_cap world s k :
  subscribe world = Some s ->
  (k < List.length (sleeps (trace s)))%nat ->
  nth k (sleeps (trace s)) 0 = Z.min (2 ^ Z.of_nat k) 30.
Proof.
  intros Hrun Hk.
  destruct (run_preserves backoff_inv step_backoff_inv _ _ _ init_backoff_inv Hrun)
    as [Hsl _].
  rewrite Hsl, backoff_delays_nth by exact Hk.
  rewrite backoff_from_closed by lia. f_equal. lia.
Qed.

(** *** Returning *)

Lemma step_done_inv s a s' : done_inv s -> step s a = Some s' -> done_inv s'.
Proof.
  unfold done_inv. intros Hd Hs.
  split_step Hs; reduce_state; try (intros; discriminate); try congruence;
    trivial.
Qed.

Lemma run_keeps_flag acts : forall s s',
  shutdown_requested s = true -> run s acts = Some s' ->
  shutdown_requested s' = true.
Proof.
  apply (run_preserves (fun s => shutdown_requested s = true)).
  intros s a s' Hf Hs. split_step Hs; reduce_state; trivial; congruence.
Qed.

(** [subscribe] returns only after shutdown was requested: no failure of
    the connection, of a message or of a fetch ends it.  And nothing in the
    run clears the flag once it is set. *)
Theorem subscribe_returns_only_on_shutdown world s acts s' :
  subscribe world = Some s ->
  run s acts = Some s' ->
  (pc s = Done -> shutdown_requested s = true)
  /\ (shutdown_requested s = true -> shutdown_requested s' = true).
Proof.
  intros Hrun Hrun'. split.
  - assert (Hinit : done_inv init) by (intros H; discriminate H).
    exact (run_preserves done_inv step_done_inv _ _ _ Hinit Hrun).
  - intros Hf. exact (run_keeps_flag _ _ _ Hf Hrun').
Qed.

(** *** The queue *)

Lemma step_fifo s a s' :
  step s a = Some s' ->
  items (image_queue s) ++ put_of s a = got_of s a ++ items (image_queue s').
Proof.
  intros Hs. unfold put_of, got_of.
  split_step Hs; reduce_state;
    repeat match goal with
           | H : Q.put _ _ = Some _ |- _ =>
               apply put_some in H; destruct H as (? & ? & ?)
           | H : Q.get _ = Some _ |- _ =>
               apply get_some in H; destruct H as (? & ?)
           | H : pc s = _ |- _ => rewrite H
           end;
    rewrite ?app_nil_r; cbn [app]; congruence.
Qed.

(** The queue is first in, first out and loses nothing: along any run, the
    images that were in the queue followed by those put into it are the
    images [update_task] took out followed by those still in the queue. *)
Theorem queue_fifo acts : forall s s',
  run s acts = Some s' ->
  items (image_queue s) ++ put_log s acts
  = got_log s acts ++ items (image_queue s').
Proof.
  induction acts as [|a acts IH]; intros s s' Hrun; cbn in Hrun |- *.
  - injection Hrun as <-. now rewrite app_nil_r.
  - destruct (step s a) as [s1|] eqn:Hs; [|discriminate].
    rewrite app_assoc, (step_fifo _ _ _ Hs), <- !app_assoc.
    f_equal. now apply IH.
Qed.

Lemma step_size_inv s a s' : size_inv s -> step s a = Some s' -> size_inv s'.
Proof.
  unfold size_inv. intros [Hq Hpc] Hs.
  split_step Hs; reduce_state;
    repeat match goal with
           | H : Q.put _ _ = Some _ |- _ =>
               apply put_some in H; destruct H as (? & ? & ?)
           | H : Q.get _ = Some _ |- _ =>
               apply get_some in H; destruct H as (? & ?)
           | H : on_message _ _ _ = (_, Ret (Some _)) |- _ =>
               apply on_message_image_size in H
           | H : pc s = _ |- _ => rewrite H in Hpc
           | H : items _ = _ |- _ => rewrite H in *
           end;
    try (split; [assumption | solve [trivial | assumption]]).
  - split; [|trivial]. apply Forall_app. split; [assumption|].
    now constructor.
  - split; [|assumption]. now inversion Hq.
Qed.

(** Every image in the queue is 400 x 400. *)
Theorem queued_images_are_400x400 world s :
  subscribe world = Some s ->
  Forall (fun image => size image = (400, 400)) (items (image_queue s)).
Proof.
  intros Hrun.
  assert (Hinit : size_inv init) by (split; [constructor | exact I]).
  exact (proj1 (run_preserves size_inv step_size_inv _ _ _ Hinit Hrun)).
Qed.

(** In every state of a run the subscriber can take its next step whatever
    the awaited operation comes back with.  In particular [image_queue.put]
    at line 94 never blocks: the queue has room when it is reached, also
    with [update_task] running in between. *)
Theorem subscriber_never_stuck world s :
  subscribe world = Some s ->
  (forall a, awaited (pc s) a = true -> exists s', step s a = Some s')
  /\ (forall image, pc s = PushPut image ->
      Q.put (image_queue s) image
      = Some {| maxsize := 5; items := items (image_queue s) ++ [image] |}).
Proof.
  intros Hrun.
  pose proof (run_inv json_loads Image_open _ _ _ init_inv Hrun) as Hinv.
  split.
  - intros a. now apply awaited_enabled.
  - intros image Hpc. destruct Hinv as (Hm & _ & Hput & _).
    unfold Q.put. rewrite room_not_full, Hm; [reflexivity|].
    rewrite Hm. now apply (Hput image).
Qed.

(** *** Connections *)

Lemma step_connection_inv s a s' :
  connection_inv s -> step s a = Some s' -> connection_inv s'.
Proof.
  unfold connection_inv. intros Hc Hs.
  split_step Hs; reduce_state; message_facts;
    repeat match goal with
           | H : pc s = _ |- _ => rewrite H in Hc
           end;
    cbn [connection_state] in *;
    rewrite ?sends_app, ?closes_app; cbn [sends closes];
    try lia; try assumption.
Qed.

(** A connection is open exactly while the subscriber is subscribed: every
    connection has been closed again by the time the subscriber sleeps,
    reconnects or returns. *)
Theorem connection_closed_unless_subscribed world s :
  subscribe world = Some s ->
  sends (trace s)
  = (closes (trace s)
     + match connection_state (pc s) with Subscribed => 1 | _ => 0 end)%nat.
Proof.
  intros Hrun.
  assert (Hinit : connection_inv init) by reflexivity.
  pose proof (run_preserves connection_inv step_connection_inv _ _ _ Hinit Hrun) as H.
  unfold connection_inv in H. destruct (connection_state (pc s)); lia.
Qed.

Lemma step_reconnect_inv s a s' :
  reconnect_inv s -> step s a = Some s' -> reconnect_inv s'.
Proof.
  unfold reconnect_inv. intros [Hle Hc] Hs.
  split_step Hs; reduce_state; message_facts;
    repeat match goal with
           | H : pc s = _ |- _ => rewrite H in Hc
           | H : negb _ = true |- _ => apply negb_true_iff in H
           | H : negb _ = false |- _ => apply negb_false_iff in H
           end;
    rewrite ?sleeps_app, ?connects_app, ?length_app; cbn [sleeps connects List.length];
    repeat match goal with
           | H : sleeps _ = [] |- _ => rewrite H
           | H : connects _ = 0%nat |- _ => rewrite H
           end;
    cbn [List.length];
    try match type of Hc with
        | ?x = false -> _ =>
            let Hx := fresh in
            assert (Hx : x = false) by (reflexivity || assumption);
            specialize (Hc Hx)
        end;
    try (split; [lia | solve [trivial | lia | intros; lia | intros; congruence]]).
  split; [exact Hle|]. destruct (pc s); trivial. intros; discriminate.
Qed.

(** The subscriber never reconnects without having slept: the number of
    connection attempts is at most one more than the number of sleeps. *)
Theorem reconnects_only_after_sleep world s :
  subscribe world = Some s ->
  (connects (trace s) <= List.length (sleeps (trace s)) + 1)%nat.
Proof.
  intros Hrun.
  assert (Hinit : reconnect_inv init) by (split; [cbn; lia | intros _; reflexivity]).
  destruct (run_preserves reconnect_inv step_reconnect_inv _ _ _ Hinit Hrun) as [H _].
  lia.
Qed.

(** *** Requests *)

Lemma step_http_gets s a s' :
  step s a = Some s' ->
  (List.length (http_gets (trace s'))
   <= List.length (http_gets (trace s)) + (if is_recv a then 2 else 0))%nat.
Proof.
  intros Hs.
  split_step Hs; reduce_state; message_facts;
    rewrite ?http_gets_app, ?length_app; cbn [http_gets List.length is_recv]; lia.
Qed.

(** At most two HTTP requests are issued per message taken from the
    socket, and none otherwise. *)
Theorem two_requests_per_message world s :
  subscribe world = Some s ->
  (List.length (http_gets (trace s)) <= 2 * receives world)%nat.
Proof.
  intros Hrun.
  enough (H : forall acts s0 s1, run s0 acts = Some s1 ->
            (List.length (http_gets (trace s1))
             <= List.length (http_gets (trace s0)) + 2 * receives acts)%nat)
    by (specialize (H _ _ _ Hrun); cbn in H; lia).
  induction acts as [|a acts IH]; intros s0 s1 Hr; cbn in Hr.
  - injection Hr as <-. lia.
  - destruct (step s0 a) as [s2|] eqn:Hs; [|discriminate].
    specialize (IH _ _ Hr). pose proof (step_http_gets _ _ _ Hs) as H2.
    unfold receives in *. cbn [filter].
    destruct (is_recv a); cbn [List.length]; lia.
Qed.

End RunMore.

(** ** The further properties at concrete inputs *)

Lemma rewrite_ipfs_prefix_substitution_witness :
  (String.prefix "ipfs://" "ipfs://abc/def" = true ->
   Py.contains "ipfs://" (Py.drop 7 "ipfs://abc/def") = false)
  /\ rewrite_ipfs (PyStr "ipfs://abc/def")
     = Ret (PyStr (prefix_substitution "ipfs://abc/def")).
Proof.
  split; [intros _; reflexivity|].
  exact (rewrite_ipfs_prefix_substitution "ipfs://abc/def" (fun _ => eq_refl)).
Defined.

Lemma sleep_delays_double_to_cap_witness :
  exists s,
    subscribe Sample.json_loads Sample.Image_open Worlds.three_failures = Some s
    /\ (2 < List.length (sleeps (trace s)))%nat
    /\ nth 2 (sleeps (trace s)) 0 = Z.min (2 ^ Z.of_nat 2) 30.
Proof.
  eexists.
  refine ((fun H Hk => conj H (conj Hk (sleep_delays_double_to_cap
                                          Sample.json_loads Sample.Image_open
                                          _ _ 2%nat H Hk))) _ _).
  - reflexivity.
  - cbn. lia.
Defined.

Lemma subscribe_returns_only_on_shutdown_witness :
  subscribe Sample.json_loads Sample.Image_open Worlds.shutdown
  = Some Sample.finished
  /\ run Sample.json_loads Sample.Image_open Sample.finished [UpdateTask true]
     = Some Sample.finished
  /\ (pc Sample.finished = Done -> shutdown_requested Sample.finished = true).
Proof.
  split; [reflexivity|]. split; [reflexivity|].
  exact (proj1 (subscribe_returns_only_on_shutdown
                  Sample.json_loads Sample.Image_open
                  Worlds.shutdown Sample.finished [UpdateTask true] Sample.finished
                  eq_refl eq_refl)).
Defined.

Lemma queue_fifo_witness :
  exists s,
    run Sample.json_loads Sample.Image_open init Worlds.one_image_shown = Some s
    /\ items (image_queue init)
       ++ put_log Sample.json_loads Sample.Image_open init Worlds.one_image_shown
       = got_log Sample.json_loads Sample.Image_open init Worlds.one_image_shown
         ++ items (image_queue s).
Proof.
  eexists.
  refine ((fun H => conj H (queue_fifo Sample.json_loads Sample.Image_open
                              _ _ _ H)) _).
  reflexivity.
Defined.

Lemma queued_images_are_400x400_witness :
  exists s,
    subscribe Sample.json_loads Sample.Image_open Worlds.one_image = Some s
    /\ Forall (fun image => size image = (400, 400)) (items (image_queue s)).
Proof.
  eexists.
  refine ((fun H => conj H (queued_images_are_400x400
                              Sample.json_loads Sample.Image_open _ _ H)) _).
  reflexivity.
Defined.

Lemma subscriber_never_stuck_witness :
  exists s,
    subscribe Sample.json_loads Sample.Image_open Worlds.one_image = Some s
    /\ forall a, awaited (pc s) a = true ->
                 exists s', step Sample.json_loads Sample.Image_open s a = Some s'.
Proof.
  eexists.
  refine ((fun H => conj H (proj1 (subscriber_never_stuck
                                     Sample.json_loads Sample.Image_open _ _ H))) _).
  reflexivity.
Defined.

Lemma connection_closed_unless_subscribed_witness :
  exists s,
    subscribe Sample.json_loads Sample.Image_open Worlds.shutdown = Some s
    /\ sends (trace s)
       = (closes (trace s)
          + match connection_state (pc s) with Subscribed => 1 | _ => 0 end)%nat.
Proof.
  eexists.
  refine ((fun H => conj H (connection_closed_unless_subscribed
                              Sample.json_loads Sample.Image_open _ _ H)) _).
  reflexivity.
Defined.

Lemma reconnects_only_after_sleep_witness :
  exists s,
    subscribe Sample.json_loads Sample.Image_open Worlds.three_failures = Some s
    /\ (connects (trace s) <= List.length (sleeps (trace s)) + 1)%nat.
Proof.
  eexists.
  refine ((fun H => conj H (reconnects_only_after_sleep
                              Sample.json_loads Sample.Image_open _ _ H)) _).
  reflexivity.
Defined.

Lemma two_requests_per_message_witness :
  exists s,
    subscribe Sample.json_loads Sample.Image_open Worlds.one_image = Some s
    /\ (List.length (http_gets (trace s)) <= 2 * receives Worlds.one_image)%nat.
Proof.
  eexists.
  refine ((fun H => conj H (two_requests_per_message
                              Sample.json_loads Sample.Image_open _ _ H)) _).
  reflexivity.
Defined.

(** ** Strings that cannot be printed *)

Example lone_surrogate_is_refused :
  Py.has_surrogate Sample.surrogate = true
  /\ Py.prints (PyStr Sample.surrogate) = false
  /\ Py.prints Sample.meta_url = true
  /\ Py.prints (PyDict [("uri", PyStr Sample.surrogate)]) = true.
Proof. repeat split; reflexivity. Qed.

(** A message whose [uri] is a lone surrogate: the [print] of line 88
    raises, no request is made and the connection is closed. *)
Example surrogate_uri_disconnects :
  Sample.json_loads Sample.msg_uri_surrogate
  = Some (PyDict [("uri", PyStr Sample.surrogate)])
  /\ step Sample.json_loads Sample.Image_open Sample.receiving
       (RecvReply (RecvMessage Sample.msg_uri_surrogate)
          (Sample.ok Sample.body_http) (Sample.ok Sample.ppm))
     = Some (goto Sample.receiving AfterTry
               [EvClose; EvPrint (LogWebSocketError UnicodeEncodeError)]).
Proof. split; reflexivity. Qed.

(** Metadata whose [image] holds a lone surrogate: the [print] of line 37
    raises inside the [try], the second handler prints it, and the fetch
    returns [None] after the metadata request alone. *)
Example surrogate_image_yields_none :
  fetch_metadata_and_image Sample.json_loads Sample.Image_open
    (Sample.ok Sample.body_image_surrogate) (Sample.ok Sample.ppm) Sample.meta_url
  = ([EvHttpGet Sample.meta_url 5;
      EvPrint (LogMetadata (PyDict [("image", PyStr Sample.image_surrogate)]));
      EvPrint (LogErrorProcessing UnicodeEncodeError)], None).
Proof. reflexivity. Qed.
